(** * PPT-Compatible MP4 Converter: a shallow embedding of [mp4_converter.py]

    The development follows the source file top-down:

    - [PyFloat]: Python's [float] (IEEE 754 binary64) on top of the Standard
      Library's [SpecFloat], with [round(x, 3)] and [math.isclose];
    - [PyStr], [Py]: the string methods, exceptions and [float(str)] the source
      relies on;
    - [Tempo]: [build_atempo_expr] (the Tempo Decomposer);
    - [Speed]: [parse_speed];
    - [Eff], [Probe]: the effects of the worker, [run_cmd] and
      [has_audio_stream] (the Probe Adapter);
    - [Builder]: [build_ffmpeg_cmd] (the Command Builder);
    - [Runner]: [ConverterWorker.run] (the Batch Runner);
    - [Paths]: [suggest_output_path] and the [os.path] functions under it;
    - [Gui]: the file list and the Convert button of the window.

    Definitions come first; the facts about them follow in the modules whose
    names end in [Facts] or [More]. *)

From Stdlib Require Import ZArith List String Ascii Bool Lia Lqa QArith Qabs Qpower.
From Stdlib Require Import SpecFloat Decimal DecimalString Sorted.
Import ListNotations.

Local Open Scope Z_scope.

(** ** Python floats *)

Module PyFloat.

Definition prec : Z := 53.
Definition emax : Z := 1024.

Definition float : Type := spec_float.

Definition fdiv : float -> float -> float := SFdiv prec emax.
Definition fmul : float -> float -> float := SFmul prec emax.
Definition fsub : float -> float -> float := SFsub prec emax.
Definition fabs : float -> float := SFabs.

(** Python's comparison operators on floats (all false on NaN). *)
Definition flt (a b : float) : bool := SFltb a b.
Definition fle (a b : float) : bool := SFleb a b.
Definition fgt (a b : float) : bool := SFltb b a.
Definition fge (a b : float) : bool := SFleb b a.
Definition feq (a b : float) : bool := SFeqb a b.

Definition is_inf (x : float) : bool :=
  match x with S754_infinity _ => true | _ => false end.

Definition is_finite (x : float) : bool :=
  match x with S754_zero _ | S754_finite _ _ _ => true | _ => false end.

(** A value of the binary64 format (SpecFloat's well-formedness). *)
Definition valid (x : float) : bool := valid_binary prec emax x.

(** The double nearest to the rational [a / b] (round to nearest, ties to
    even), with sign [s]: what a correctly rounded decimal-to-binary
    conversion returns. *)
Definition nearest_ratio (s : bool) (a b : positive) : float :=
  let '(mz, ez, lz) := SFdiv_core_binary prec emax (Zpos a) 0 (Zpos b) 0 in
  binary_round_aux prec emax s mz ez lz.

(** The double nearest to [(-1)^s * m * 10^e], for [0 <= m]. *)
Definition of_decimal (s : bool) (m : Z) (e : Z) : float :=
  match m with
  | Zpos p =>
      match e with
      | Zneg k => nearest_ratio s p (Pos.pow 10 k)
      | _ => binary_round prec emax s (p * Z.to_pos (10 ^ e)) 0
      end
  | _ => S754_zero s
  end.

(** The literals of the source. *)
Definition f0 : float := S754_zero false.
Definition f1 : float := S754_finite false 4503599627370496 (-52).
Definition f2 : float := S754_finite false 4503599627370496 (-51).
Definition f0_5 : float := S754_finite false 4503599627370496 (-53).
Definition f1e_3 : float := Eval vm_compute in of_decimal false 1 (-3).
Definition f1e_6 : float := Eval vm_compute in of_decimal false 1 (-6).
Definition finf : float := S754_infinity false.

(** Nearest integer to [a / b], ties to even ([0 <= a], [0 < b]). *)
Definition div_half_even (a b : Z) : Z :=
  let q := a / b in
  match 2 * (a mod b) ?= b with
  | Lt => q
  | Gt => q + 1
  | Eq => if Z.even q then q else q + 1
  end.

(** [round(x, 3)]: CPython prints [x] correctly rounded (half to even on the
    exact binary value) to three decimals and reads the result back. NaN,
    infinities and zeros round to themselves; a finite [x] with a
    non-negative exponent is an integer and is returned unchanged. *)
Definition round3 (x : float) : float :=
  match x with
  | S754_finite s m e =>
      if 0 <=? e then x
      else of_decimal s (div_half_even (Zpos m * 1000) (2 ^ (- e))) (-3)
  | _ => x
  end.

(** [math.isclose(a, b, rel_tol=rel_tol, abs_tol=abs_tol)], as in CPython's
    [math_isclose_impl] (the tolerances of the source are non-negative, so the
    [ValueError] branch is unreachable). *)
Definition isclose (a b rel_tol abs_tol : float) : bool :=
  if feq a b then true
  else if is_inf a || is_inf b then false
  else
    let diff := fabs (fsub b a) in
    fle diff (fabs (fmul rel_tol b))
    || fle diff (fabs (fmul rel_tol a))
    || fle diff abs_tol.

(** The exact rational value of a finite float. *)
Definition F2Q (x : float) : Q :=
  match x with
  | S754_finite s m e =>
      let v := (inject_Z (Zpos m) * Qpower 2 e)%Q in
      if s then Qopp v else v
  | _ => 0%Q
  end.

(** The product of a list of rationals. *)
Definition product (l : list Q) : Q := fold_right Qmult 1%Q l.

End PyFloat.

(** ** Python strings, exceptions and [float(str)] *)

Module PyStr.
Local Open Scope string_scope.

(** [sep.join(l)] *)
Fixpoint join (sep : string) (l : list string) : string :=
  match l with
  | [] => ""
  | s :: rest =>
      match rest with
      | [] => s
      | _ => s ++ sep ++ join sep rest
      end
  end.

(** The ASCII characters for which [str.isspace] holds. *)
Definition is_space (c : ascii) : bool :=
  let n := nat_of_ascii c in
  ((9 <=? n) && (n <=? 13) || (28 <=? n) && (n <=? 32))%nat.

Fixpoint lstrip (s : string) : string :=
  match s with
  | String c r => if is_space c then lstrip r else s
  | EmptyString => s
  end.

Fixpoint rstrip (s : string) : string :=
  match s with
  | String c r =>
      match rstrip r with
      | EmptyString => if is_space c then "" else String c ""
      | r' => String c r'
      end
  | EmptyString => ""
  end.

(** [s.strip()] *)
Definition strip (s : string) : string := lstrip (rstrip s).

Definition lower_char (c : ascii) : ascii :=
  let n := nat_of_ascii c in
  if ((65 <=? n) && (n <=? 90))%nat then ascii_of_nat (n + 32) else c.

(** [s.lower()] (on ASCII letters). *)
Fixpoint lower (s : string) : string :=
  match s with
  | String c r => String (lower_char c) (lower r)
  | EmptyString => ""
  end.

(** [s.replace(c, "")] for a one-character [c]. *)
Fixpoint remove_char (x : ascii) (s : string) : string :=
  match s with
  | String c r => if Ascii.eqb c x then remove_char x r else String c (remove_char x r)
  | EmptyString => ""
  end.

(** [needle in hay] *)
Fixpoint contains (needle hay : string) : bool :=
  if prefix needle hay then true
  else match hay with
       | String _ r => contains needle r
       | EmptyString => false
       end.

Fixpoint has_slash (s : string) : bool :=
  match s with
  | String c r => Ascii.eqb c "/" || has_slash r
  | EmptyString => false
  end.

(** [os.path.basename] ([posixpath]): what follows the last slash. *)
Fixpoint basename (p : string) : string :=
  match p with
  | String c r =>
      if has_slash r then basename r
      else if Ascii.eqb c "/" then r else p
  | EmptyString => ""
  end.

Fixpoint rstrip_slash (s : string) : string :=
  match s with
  | String c r =>
      match rstrip_slash r with
      | EmptyString => if Ascii.eqb c "/" then "" else String c ""
      | r' => String c r'
      end
  | EmptyString => ""
  end.

(** [os.path.dirname] ([posixpath]): the part up to the last slash, without
    its trailing slashes unless it consists of slashes only. *)
Definition dirname (p : string) : string :=
  let head := substring 0 (length p - length (basename p)) p in
  match rstrip_slash head with
  | EmptyString => head
  | h => h
  end.

(** [str(n)] for a non-negative [int]. *)
Definition str_of_nat (n : nat) : string := NilEmpty.string_of_uint (Nat.to_uint n).

Definition newline : string := String (ascii_of_nat 10) "".

End PyStr.

Module Py.
Import PyFloat PyStr.
Local Open Scope string_scope.

(** An instance of (a subclass of) [Exception]; [str(e)] is [exn_msg e]. *)
Record exn : Type := Exn { exn_class : string; exn_msg : string }.

(** The result of an expression that may raise. *)
Inductive result (A : Type) : Type :=
| Ok (a : A)
| Raise (e : exn).
Arguments Ok {A} a.
Arguments Raise {A} e.

Definition rbind {A B} (r : result A) (k : A -> result B) : result B :=
  match r with
  | Ok a => k a
  | Raise e => Raise e
  end.

Definition is_digit (c : ascii) : bool :=
  let n := nat_of_ascii c in ((48 <=? n) && (n <=? 57))%nat.

Definition digit_val (c : ascii) : Z := Z.of_nat (nat_of_ascii c) - 48.

Definition digits_value (ds : list ascii) : Z :=
  fold_left (fun acc c => 10 * acc + digit_val c) ds 0.

(** CPython's [_Py_string_to_number_with_underscores]: an underscore is
    accepted between two digits only, and dropped. *)
Fixpoint drop_underscores (prev : ascii) (s : list ascii) : option (list ascii) :=
  match s with
  | [] => if Ascii.eqb prev "_" then None else Some []
  | c :: r =>
      if Ascii.eqb c "_" then
        if is_digit prev then drop_underscores c r else None
      else if Ascii.eqb prev "_" && negb (is_digit c) then None
      else option_map (cons c) (drop_underscores c r)
  end.

Fixpoint span_digits (s : list ascii) : list ascii * list ascii :=
  match s with
  | c :: r =>
      if is_digit c then let '(ds, rest) := span_digits r in (c :: ds, rest)
      else ([], s)
  | [] => ([], [])
  end.

Definition parse_sign (s : list ascii) : bool * list ascii :=
  match s with
  | c :: r =>
      if Ascii.eqb c "-" then (true, r)
      else if Ascii.eqb c "+" then (false, r)
      else (false, s)
  | [] => (false, s)
  end.

(** What follows the mantissa: nothing, or [e], an optional sign and digits. *)
Definition parse_exponent (s : list ascii) : option Z :=
  match s with
  | [] => Some 0
  | c :: r =>
      if Ascii.eqb c "e" || Ascii.eqb c "E" then
        let '(neg, r1) := parse_sign r in
        let '(ds, r2) := span_digits r1 in
        match ds, r2 with
        | _ :: _, [] => Some (if neg then - digits_value ds else digits_value ds)
        | _, _ => None
        end
      else None
  end.

Definition parse_number (neg : bool) (s : list ascii) : option float :=
  let '(ip, r1) := span_digits s in
  let '(fp, r2) :=
    match r1 with
    | c :: r => if Ascii.eqb c "." then span_digits r else ([], r1)
    | [] => ([], r1)
    end in
  match (ip ++ fp)%list with
  | [] => None
  | ds =>
      match parse_exponent r2 with
      | Some e => Some (of_decimal neg (digits_value ds) (e - Z.of_nat (List.length fp)))
      | None => None
      end
  end.

Definition parse_float (s : list ascii) : option float :=
  let '(neg, r) := parse_sign s in
  let word := lower (string_of_list_ascii r) in
  if String.eqb word "inf" || String.eqb word "infinity" then Some (S754_infinity neg)
  else if String.eqb word "nan" then Some S754_nan
  else parse_number neg r.

(** The whitespace [float] skips around an ASCII literal ([Py_ISSPACE]):
    unlike [str.strip], not the separators 28 to 31. *)
Definition is_c_space (c : ascii) : bool :=
  let n := nat_of_ascii c in
  ((9 <=? n) && (n <=? 13) || (n =? 32))%nat.

Fixpoint c_lstrip (s : string) : string :=
  match s with
  | String c r => if is_c_space c then c_lstrip r else s
  | EmptyString => s
  end.

Fixpoint c_rstrip (s : string) : string :=
  match s with
  | String c r =>
      match c_rstrip r with
      | EmptyString => if is_c_space c then "" else String c ""
      | r' => String c r'
      end
  | EmptyString => ""
  end.

(** [float(s)] for an ASCII string [s]: surrounding whitespace is ignored, the
    literal is read correctly rounded, anything else raises [ValueError] (whose
    message is shortened here). The decimal digits and the white space
    outside ASCII, which [float] reads as well, are not modelled: the
    function is used on ASCII input, or where the property holds whatever
    [float] returns. *)
Definition float_of_string (s : string) : result float :=
  match drop_underscores Ascii.zero (list_ascii_of_string (c_lstrip (c_rstrip s))) with
  | Some cs =>
      match parse_float cs with
      | Some v => Ok v
      | None => Raise (Exn "ValueError" "could not convert string to float")
      end
  | None => Raise (Exn "ValueError" "could not convert string to float")
  end.

End Py.

(** ** The Tempo Decomposer *)

Module Tempo.
Import PyFloat PyStr.
Local Open Scope string_scope.

(** [while remaining > 2.0: factors.append(2.0); remaining /= 2.0].
    [None]: the loop is still running when the fuel is used up. *)
Fixpoint halve_loop (fuel : nat) (remaining : float) (factors : list float)
  : option (float * list float) :=
  if fgt remaining f2 then
    match fuel with
    | O => None
    | S k => halve_loop k (fdiv remaining f2) (factors ++ [f2])%list
    end
  else Some (remaining, factors).

(** [while remaining < 0.5: factors.append(0.5); remaining /= 0.5]. *)
Fixpoint double_loop (fuel : nat) (remaining : float) (factors : list float)
  : option (float * list float) :=
  if flt remaining f0_5 then
    match fuel with
    | O => None
    | S k => double_loop k (fdiv remaining f0_5) (factors ++ [f0_5])%list
    end
  else Some (remaining, factors).

(** The list [factors] when [build_atempo_expr] reaches its [return]. *)
Definition atempo_factors (fuel : nat) (speed : float) : option (list float) :=
  let speed := if fle speed f0 then f1 else speed in
  match halve_loop fuel speed [] with
  | None => None
  | Some (remaining, factors) =>
      match double_loop fuel remaining factors with
      | None => None
      | Some (remaining, factors) =>
          let remaining := round3 remaining in
          Some (if negb (isclose remaining f1 f1e_3 f1e_3)
                then (factors ++ [remaining])%list else factors)
      end
  end.

(** A factor one [atempo] stage accepts: [0.5 <= f <= 2.0]. *)
Definition in_stage_range (f : float) : bool := fle f0_5 f && fle f f2.

(** The tempo stages the returned expression stands for: the factors, or the
    single identity stage of ["atempo=1.0"] when there is none. *)
Definition emitted_factors (fuel : nat) (speed : float) : option (list float) :=
  match atempo_factors fuel speed with
  | Some [] => Some [f1]
  | r => r
  end.

Section Expr.
(** [str(f)] of a float [f], Python's shortest round-trip representation. *)
Variable float_str : float -> string.

Definition build_atempo_expr (fuel : nat) (speed : float) : option string :=
  match atempo_factors fuel speed with
  | None => None
  | Some [] => Some "atempo=1.0"
  | Some factors => Some (join "," (map (fun f => "atempo=" ++ float_str f) factors))
  end.
End Expr.

End Tempo.

(** ** Speed resolution *)

Module Speed.
Import PyFloat PyStr Py.
Local Open Scope string_scope.

Definition SPEED_PRESETS : list string :=
  ["0.5x"; "0.75x"; "1.0x"; "1.25x"; "1.5x"; "2.0x"; "2.5x"; "3.0x"; "4.0x"; "Custom…"].

Section WithFloat.
(** The built-in [float] applied to a string. *)
Variable py_float : string -> result float.

Definition parse_speed_with (preset custom : string) : result float :=
  if String.eqb preset "Custom…" then
    match py_float (remove_char "x" (lower (strip custom))) with
    | Ok v => Ok (if fgt v f0 then v else f1)
    | Raise _ => Ok f1
    end
  else py_float (remove_char "x" preset).
End WithFloat.

Definition parse_speed : string -> string -> result float :=
  parse_speed_with float_of_string.

End Speed.

(** ** Effects of the worker: the file system, external tools, the log queue
    and the progress callback *)

Module Eff.
Import PyStr Py.

(** What the worker hands to its observers, and the processes it starts. *)
Inductive event : Type :=
| EvProgress (current total : nat) (msg : string)   (* [progress_cb(current, total, msg)] *)
| EvLog (msg : string)                              (* [log_q.put(msg)] *)
| EvRun (cmd : list string).                        (* [subprocess.Popen(cmd, ...)] *)

(** How a computation ends: normally, by an exception, or not at all. *)
Inductive outcome (A : Type) : Type :=
| Done (a : A)
| Raised (e : exn)
| Hang.
Arguments Done {A} a.
Arguments Raised {A} e.
Arguments Hang {A}.

(** What the worker runs in, over a state [W] of files, processes and
    observers. The two path tests never raise; [makedirs] may. A process
    that is started exits with its code and output, or starting or reading
    it raises, or it never exits ([None]: [communicate] waits without
    timeout). The two observers are code of the caller: the progress
    callback and the [put] of the log queue return or raise. *)
Record OS (W : Type) : Type := {
  os_isfile : W -> string -> bool;
  os_exists : W -> string -> bool;
  os_makedirs : W -> string -> W * option exn;
  os_popen : W -> list string -> option (W * result (Z * string * string));
  progress_sink : W -> nat -> nat -> string -> W * option exn;
  log_sink : W -> string -> W * option exn
}.
Arguments os_isfile {W}.
Arguments os_exists {W}.
Arguments os_makedirs {W}.
Arguments os_popen {W}.
Arguments progress_sink {W}.
Arguments log_sink {W}.

(** A computation: from a state to the new state, the events in order, and
    the outcome. *)
Definition comp (W A : Type) : Type := W -> W * list event * outcome A.

Section Monad.
Context {W : Type}.

Definition ret {A} (a : A) : comp W A := fun w => (w, [], Done a).

Definition bind {A B} (c : comp W A) (k : A -> comp W B) : comp W B :=
  fun w =>
    match c w with
    | (w1, t1, Done a) => let '(w2, t2, o) := k a w1 in (w2, t1 ++ t2, o)
    | (w1, t1, Raised e) => (w1, t1, Raised e)
    | (w1, t1, Hang) => (w1, t1, Hang)
    end.

Definition raise {A} (e : exn) : comp W A := fun w => (w, [], Raised e).

(** [try: body / except Exception as e: handler(e) / finally: final]. *)
Definition try_except_finally (body : comp W unit) (handler : exn -> comp W unit)
           (final : comp W unit) : comp W unit :=
  fun w =>
    match body w with
    | (w1, t1, Done _) => let '(w2, t2, o) := final w1 in (w2, t1 ++ t2, o)
    | (w1, t1, Raised e) =>
        match handler e w1 with
        | (w2, t2, Done _) => let '(w3, t3, o) := final w2 in (w3, t1 ++ t2 ++ t3, o)
        | (w2, t2, Raised e') =>
            match final w2 with
            | (w3, t3, Done _) => (w3, t1 ++ t2 ++ t3, Raised e')
            | (w3, t3, o) => (w3, t1 ++ t2 ++ t3, o)
            end
        | (w2, t2, Hang) => (w2, t1 ++ t2, Hang)
        end
    | (w1, t1, Hang) => (w1, t1, Hang)
    end.
End Monad.

Declare Scope comp_scope.
Delimit Scope comp_scope with comp.
Notation "x <- c ;; k" := (bind c (fun x => k))
  (at level 61, c at next level, right associativity) : comp_scope.
Notation "' p <- c ;; k" := (bind c (fun p => k))
  (at level 61, p pattern, c at next level, right associativity) : comp_scope.
Notation "c ;; k" := (bind c (fun _ => k))
  (at level 61, right associativity) : comp_scope.

End Eff.

(** ** The Probe Adapter *)

Module Probe.
Import PyStr Py Eff.
Local Open Scope string_scope.

(** The value [json.loads] returns. *)
#[local] Set Warnings "-register-all".
Inductive json : Type :=
| JNull
| JBool (b : bool)
| JNum (digits : string)
| JStr (s : string)
| JList (l : list json)
| JDict (kv : list (string * json)).

(** [d.get(k, default)] on a [dict]. *)
Fixpoint dict_get (kv : list (string * json)) (k : string) (default : json) : json :=
  match kv with
  | (k', v) :: rest => if String.eqb k' k then v else dict_get rest k default
  | [] => default
  end.

(** [obj.get(k, default)]: only a [dict] has the method. *)
Definition py_get (obj : json) (k : string) (default : json) : result json :=
  match obj with
  | JDict kv => Ok (dict_get kv k default)
  | _ => Raise (Exn "AttributeError" "object has no attribute 'get'")
  end.

(** The elements [for s in obj] goes through. *)
Definition py_iter (obj : json) : result (list json) :=
  match obj with
  | JList l => Ok l
  | JStr s => Ok (map (fun c => JStr (String c "")) (list_ascii_of_string s))
  | JDict kv => Ok (map (fun p => JStr (fst p)) kv)
  | _ => Raise (Exn "TypeError" "object is not iterable")
  end.

(** [v == "audio"] *)
Definition is_audio (v : json) : bool :=
  match v with
  | JStr s => String.eqb s "audio"
  | _ => false
  end.

(** [any(s.get("codec_type") == "audio" for s in streams)], left to right,
    stopping at the first hit. *)
Fixpoint any_audio (streams : list json) : result bool :=
  match streams with
  | [] => Ok false
  | s :: rest =>
      match py_get s "codec_type" JNull with
      | Ok v => if is_audio v then Ok true else any_audio rest
      | Raise e => Raise e
      end
  end.

Section WithOS.
Context {W : Type}.
Variable os : OS W.
(** [json.loads] *)
Variable json_loads : string -> result json.

(** [run_cmd]: start the process, wait for it, return its exit code and
    its two output streams; an exception of [Popen] or [communicate]
    propagates, and the call does not return while the process runs. *)
Definition run_cmd (cmd : list string) : comp W (Z * string * string) :=
  fun w =>
    match os_popen os w cmd with
    | Some (w', Ok r) => (w', [EvRun cmd], Done r)
    | Some (w', Raise e) => (w', [EvRun cmd], Raised e)
    | None => (w, [EvRun cmd], Hang)
    end.

Definition probe_cmd (path : string) : list string :=
  ["ffprobe"; "-v"; "error"; "-select_streams"; "a"; "-show_entries";
   "stream=codec_type"; "-of"; "json"; path].

(** The body of the [try] of [has_audio_stream]. *)
Definition read_streams (out : string) : result bool :=
  rbind (json_loads out) (fun data =>
  rbind (py_get data "streams" (JList [])) (fun streams =>
  rbind (py_iter streams) any_audio)).

Definition has_audio_stream (path : string) : comp W bool :=
  ('(code, out, _) <- run_cmd (probe_cmd path) ;;
   if negb (code =? 0)%Z then ret false
   else match read_streams out with
        | Ok b => ret b
        | Raise _ => ret false
        end)%comp.
End WithOS.

End Probe.

(** ** The Command Builder *)

Module Builder.
Import PyFloat PyStr Py Tempo.
Local Open Scope string_scope.

Record profile_cfg : Type := {
  profile : string;
  level : string;
  preset : string;
  crf : string
}.

Definition PROFILES : list (string * profile_cfg) :=
  [ ("Most Compatible (Baseline L3.1, 30fps)",
     {| profile := "baseline"; level := "3.1"; preset := "veryfast"; crf := "20" |});
    ("Balanced (Main L4.0, 30fps)",
     {| profile := "main"; level := "4.0"; preset := "faster"; crf := "20" |});
    ("High Quality (High L4.1, 30fps)",
     {| profile := "high"; level := "4.1"; preset := "fast"; crf := "18" |}) ].

Definition ensure_even_dimensions_filter : string :=
  "scale=trunc(iw/2)*2:trunc(ih/2)*2,fps=30".

(** [not math.isclose(speed, 1.0, rel_tol=1e-6)] *)
Definition speed_changed (speed : float) : bool := negb (isclose speed f1 f1e_6 f0).

(** The arguments of the silent track (the [add_silence] branch). *)
Definition silence_args : list string :=
  ["-f"; "lavfi"; "-t"; "99999"; "-i"; "anullsrc=channel_layout=stereo:sample_rate=48000";
   "-shortest";
   "-c:a"; "aac"; "-b:a"; "128k"; "-ar"; "48000"; "-ac"; "2";
   "-map"; "0:v:0"; "-map"; "1:a:0"].

Definition aac_args : list string :=
  ["-c:a"; "aac"; "-b:a"; "128k"; "-ar"; "48000"; "-ac"; "2"].

Section WithStr.
Variable float_str : float -> string.

Definition vf_parts (speed : float) : list string :=
  let stage := "setpts=PTS/" ++ float_str speed in
  ((if speed_changed speed then [stage] else []) ++ [ensure_even_dimensions_filter])%list.

(** The value [vf] of the source. *)
Definition video_filter (speed : float) : string := join "," (vf_parts speed).

(** The list [base] before the audio branch. *)
Definition base_cmd (inp : string) (cfg : profile_cfg) (speed : float) : list string :=
  ["ffmpeg"; "-y";
   "-i"; inp;
   "-map_metadata"; "-1";
   "-movflags"; "+faststart";
   "-vsync"; "vfr";
   "-vf"; video_filter speed;
   "-r"; "30";
   "-c:v"; "libx264";
   "-profile:v"; profile cfg;
   "-level"; level cfg;
   "-pix_fmt"; "yuv420p";
   "-preset"; preset cfg;
   "-crf"; crf cfg].

(** The list [a_filters]; [None] when [build_atempo_expr] does not return. *)
Definition audio_filters (fuel : nat) (speed : float) (loud_norm : bool)
  : option (list string) :=
  let a_filters := if loud_norm then ["loudnorm=I=-16:TP=-1.5:LRA=11"] else [] in
  if speed_changed speed then
    match build_atempo_expr float_str fuel speed with
    | Some expr => Some (a_filters ++ [expr])%list
    | None => None
    end
  else Some a_filters.

Definition build_ffmpeg_cmd (fuel : nat) (inp outp : string) (cfg : profile_cfg)
           (speed : float) (loud_norm add_silence : bool) : option (list string) :=
  let base := base_cmd inp cfg speed in
  if add_silence then
    Some (base ++ silence_args ++ [outp])%list
  else
    match audio_filters fuel speed loud_norm with
    | None => None
    | Some a_filters =>
        let base :=
          match a_filters with
          | [] => base
          | _ => (base ++ ["-filter:a"; join "," a_filters])%list
          end in
        Some (base ++ aac_args ++ [outp])%list
    end.
End WithStr.

(** The values given to the option [flag] on a command line: what follows
    each of its occurrences. *)
Fixpoint option_values (flag : string) (cmd : list string) : list string :=
  match cmd with
  | a :: rest =>
      ((if String.eqb a flag
        then match rest with v :: _ => [v] | [] => [] end
        else []) ++ option_values flag rest)%list
  | [] => []
  end.

(** An argument that names the tempo or the loudness filter. *)
Definition names_audio_filter (a : string) : bool :=
  contains "atempo" a || contains "loudnorm" a.

End Builder.

(** ** The Batch Runner *)

Module Runner.
Import PyFloat PyStr Py Eff Probe Builder Speed.
Local Open Scope string_scope.

(** The attributes of a [ConverterWorker]. *)
Record worker : Type := {
  tasks : list (string * string);
  w_profile : profile_cfg;
  speed : float;
  normalize_audio : bool;
  overwrite : bool
}.

Section WithRepr.
(** [repr(s)] of a string [s]: what [str] of a [KeyError] shows. *)
Variable py_repr : string -> string.

(** [PROFILES[profile_name]] *)
Fixpoint lookup_profile (l : list (string * profile_cfg)) (name : string)
  : result profile_cfg :=
  match l with
  | (k, v) :: rest => if String.eqb k name then Ok v else lookup_profile rest name
  | [] => Raise (Exn "KeyError" (py_repr name))
  end.

(** [ConverterWorker.__init__] *)
Definition make_worker (tasks : list (string * string)) (profile_name : string)
           (speed_preset speed_custom : string) (normalize_audio overwrite : bool)
  : result worker :=
  rbind (lookup_profile PROFILES profile_name) (fun cfg =>
  rbind (parse_speed speed_preset speed_custom) (fun sp =>
  Ok {| tasks := tasks; w_profile := cfg; speed := sp;
        normalize_audio := normalize_audio; overwrite := overwrite |})).
End WithRepr.

Section WithOS.
Context {W : Type}.
Variable os : OS W.
Variable json_loads : string -> result json.
Variable float_str : float -> string.
(** The fuel given to each call of [build_atempo_expr]: the number of
    factors the list can take before memory is exhausted. *)
Variable fuel : nat.
Variable self : worker.

(** [self.progress_cb(current, total, msg)]: the call is made, and returns
    or raises as the callback does. *)
Definition progress_cb (current total : nat) (msg : string) : comp W unit :=
  fun w =>
    match progress_sink os w current total msg with
    | (w', None) => (w', [EvProgress current total msg], Done tt)
    | (w', Some e) => (w', [EvProgress current total msg], Raised e)
    end.

(** [self.log(msg)], that is [self.log_q.put(msg)]. *)
Definition log (msg : string) : comp W unit :=
  fun w =>
    match log_sink os w msg with
    | (w', None) => (w', [EvLog msg], Done tt)
    | (w', Some e) => (w', [EvLog msg], Raised e)
    end.

Definition isfile (p : string) : comp W bool := fun w => (w, [], Done (os_isfile os w p)).

Definition path_exists (p : string) : comp W bool :=
  fun w => (w, [], Done (os_exists os w p)).

(** [os.makedirs(p, exist_ok=True)] *)
Definition makedirs (p : string) : comp W unit :=
  fun w =>
    match os_makedirs os w p with
    | (w', None) => (w', [], Done tt)
    | (w', Some e) => (w', [], Raised e)
    end.

(** The call of [build_ffmpeg_cmd]. When the loop of [build_atempo_expr]
    does not end, its list grows until [append] raises [MemoryError] (whose
    [str] is empty). *)
Definition build_cmd (inp outp : string) (silent : bool) : comp W (list string) :=
  match build_ffmpeg_cmd float_str fuel inp outp (w_profile self) (speed self)
                         (normalize_audio self) silent with
  | Some cmd => ret cmd
  | None => raise (Exn "MemoryError" "")
  end.

(** The body of the [try] for one task; [continue] leaves it early. *)
Definition task_body (idx total : nat) (inp outp : string) : comp W unit :=
  (progress_cb (idx - 1) total ("Converting: " ++ basename inp) ;;
   found <- isfile inp ;;
   if negb found then log ("[SKIP] Not found: " ++ inp)
   else
     makedirs (dirname outp) ;;
     present <- path_exists outp ;;
     if present && negb (overwrite self)
     then log ("[SKIP] Exists (enable Overwrite to replace): " ++ outp)
     else
       audio <- has_audio_stream os json_loads inp ;;
       let silent := negb audio in
       cmd <- build_cmd inp outp silent ;;
       log ("[CMD] " ++ join " " cmd) ;;
       '(code, _, err) <- run_cmd os cmd ;;
       if negb (code =? 0)%Z
       then log ("[ERROR] " ++ basename inp ++ ":" ++ newline ++ err)
       else log ("[OK] " ++ outp))%comp.

(** The [except Exception as e] clause. *)
Definition on_error (inp : string) (e : exn) : comp W unit :=
  log ("[ERROR] " ++ basename inp ++ ": " ++ exn_msg e).

(** The [finally] clause. *)
Definition on_done (idx total : nat) : comp W unit :=
  progress_cb idx total ("Done " ++ str_of_nat idx ++ "/" ++ str_of_nat total).

(** One iteration of the loop. *)
Definition process_task (idx total : nat) (task : string * string) : comp W unit :=
  let '(inp, outp) := task in
  try_except_finally (task_body idx total inp outp) (on_error inp) (on_done idx total).

(** [for idx, (inp, outp) in enumerate(ts, start=idx)] *)
Fixpoint run_from (idx total : nat) (ts : list (string * string)) : comp W unit :=
  match ts with
  | [] => ret tt
  | task :: rest => (process_task idx total task ;; run_from (S idx) total rest)%comp
  end.

(** [ConverterWorker.run] *)
Definition run : comp W unit :=
  run_from 1 (List.length (tasks self)) (tasks self).
End WithOS.

(** The observers return normally and leave files and processes alone. *)
Definition sinks_quiet {W} (os : OS W) : Prop :=
  (forall w current total msg, progress_sink os w current total msg = (w, None))
  /\ (forall w msg, log_sink os w msg = (w, None)).

(** Every process that is started exits, or cannot be started or read. *)
Definition tools_exit {W} (os : OS W) : Prop :=
  forall w cmd, os_popen os w cmd <> None.

(** The progress call that opens a task, and the one that closes it. *)
Definition converting (idx total : nat) (inp : string) : event :=
  EvProgress (idx - 1) total ("Converting: " ++ basename inp).

Definition finished (idx total : nat) : event :=
  EvProgress idx total ("Done " ++ str_of_nat idx ++ "/" ++ str_of_nat total).

(** The log line of the [except] clause. *)
Definition error_line (inp : string) (e : exn) : string :=
  "[ERROR] " ++ basename inp ++ ": " ++ exn_msg e.

(** The two reports of the per-task loop return normally: the log call of
    the [except] clause and the progress call of the [finally] clause. *)
Definition reports_return {W} (os : OS W) : Prop :=
  (forall w idx total,
      snd (progress_sink os w idx total
             ("Done " ++ str_of_nat idx ++ "/" ++ str_of_nat total)) = None)
  /\ (forall w inp e, snd (log_sink os w (error_line inp e)) = None).

(** The completed counts of [k] tasks that ran to their end, the first of
    them being task number [idx]. *)
Definition expected_counts (idx k : nat) : list nat :=
  flat_map (fun i => [i - 1; i]%nat) (seq idx k).

(** The completed counts handed to the progress callback, in order. *)
Definition progress_counts (t : list event) : list nat :=
  flat_map (fun ev => match ev with EvProgress c _ _ => [c] | _ => [] end) t.

(** The log lines, in order. *)
Definition log_lines (t : list event) : list string :=
  flat_map (fun ev => match ev with EvLog m => [m] | _ => [] end) t.

(** The external commands started, in order. *)
Definition commands_run (t : list event) : list (list string) :=
  flat_map (fun ev => match ev with EvRun c => [c] | _ => [] end) t.

End Runner.

(** ** Decidable checks used by the proofs *)

Module Checks.
Import PyFloat.

(** What [round3] yields on a remainder whose nearest multiple of [1/1000]
    is [n / 1000]: a float [m' * 2^e'] between 0.5 and 2.0, within [2^-53] of
    [n / 1000], that [isclose] takes for 1.0 only if [n] is 999, 1000 or
    1001. *)
Definition snap_ok (n : Z) : bool :=
  match of_decimal false n (-3) with
  | S754_finite false m' e' =>
      let r := S754_finite false m' e' in
      (-53 <=? e') && (e' <=? -51) && fle f0_5 r && fle r f2
      && (Z.abs (Zpos m' * 2 ^ (e' + 53) * 1000 - n * 2 ^ 53) <=? 1000)
      && implb (isclose r f1 f1e_3 f1e_3) (Z.abs (n - 1000) <=? 1)
  | _ => false
  end.

End Checks.

(** ** Example worlds, for the concrete runs below *)

Module Worlds.
Import PyStr Py Eff Probe.
Local Open Scope string_scope.

(** A world in which no process can be started ([ffprobe] is not on the
    path: [Popen] raises [FileNotFoundError]). *)
Definition os_no_tools : OS unit := {|
  os_isfile := fun _ _ => true;
  os_exists := fun _ _ => false;
  os_makedirs := fun w _ => (w, None);
  os_popen := fun w _ =>
    Some (w, Raise (Exn "FileNotFoundError" "[Errno 2] No such file or directory: 'ffprobe'"));
  progress_sink := fun w _ _ _ => (w, None);
  log_sink := fun w _ => (w, None)
|}.

(** A world in which every tool exits with status 1. *)
Definition os_failing_tools : OS unit := {|
  os_isfile := fun _ _ => true;
  os_exists := fun _ _ => false;
  os_makedirs := fun w _ => (w, None);
  os_popen := fun w _ => Some (w, Ok (1, "", "Invalid data found when processing input"));
  progress_sink := fun w _ _ _ => (w, None);
  log_sink := fun w _ => (w, None)
|}.

(** A word between double quotes. *)
Definition quoted (s : string) : string :=
  String (ascii_of_nat 34) s ++ String (ascii_of_nat 34) "".

(** The output of the probe on a file with one audio stream. *)
Definition audio_probe_output : string :=
  "{" ++ quoted "streams" ++ ": [{" ++ quoted "codec_type" ++ ": " ++ quoted "audio" ++ "}]}".

(** A world in which every input is a file with an audio stream, no output
    exists yet, and the tools succeed. *)
Definition os_audio : OS unit := {|
  os_isfile := fun _ _ => true;
  os_exists := fun _ _ => false;
  os_makedirs := fun w _ => (w, None);
  os_popen := fun w _ => Some (w, Ok (0, audio_probe_output, ""));
  progress_sink := fun w _ _ _ => (w, None);
  log_sink := fun w _ => (w, None)
|}.

(** What [json.loads] makes of the output of the probe in [os_audio]. *)
Definition json_audio (out : string) : result json :=
  Ok (JDict [("streams", JList [JDict [("codec_type", JStr "audio")]])]).

(** A world in which every path exists and [makedirs] refuses the empty
    path, as [os.makedirs] does. *)
Definition os_all_exist : OS unit := {|
  os_isfile := fun _ _ => true;
  os_exists := fun _ _ => true;
  os_makedirs := fun w p =>
    if String.eqb p "" then
      (w, Some (Exn "FileNotFoundError" "[Errno 2] No such file or directory: ''"))
    else (w, None);
  os_popen := fun w _ => Some (w, Ok (0, "", ""));
  progress_sink := fun w _ _ _ => (w, None);
  log_sink := fun w _ => (w, None)
|}.



End Worlds.

(** Example workers. *)
Module Workers.
Import PyFloat Py Builder Runner.
Local Open Scope string_scope.

Definition main_cfg : profile_cfg :=
  {| profile := "main"; level := "4.0"; preset := "faster"; crf := "20" |}.

(** One task whose output has no directory part; overwriting is off. *)
Definition keep_existing : worker :=
  {| tasks := [("a.mov", "a_ppt.mp4")]; w_profile := main_cfg; speed := f1;
     normalize_audio := false; overwrite := false |}.


(** One task, at the speed the custom input "inf" resolves to. *)
Definition infinite_speed : worker :=
  {| tasks := [("a.mov", "out/a_ppt.mp4")]; w_profile := main_cfg; speed := finf;
     normalize_audio := false; overwrite := true |}.

(** Two tasks at double speed. *)
Definition two_tasks : worker :=
  {| tasks := [("a.mov", "out/a_ppt.mp4"); ("b.mov", "out/b_ppt.mp4")];
     w_profile := main_cfg; speed := f2; normalize_audio := false; overwrite := true |}.

(** The worker the window starts for two files, the output folder [/out],
    the Balanced profile and the preset [2.0x]. *)
Definition gui_worker : worker :=
  {| tasks := [("/videos/a.mov", "/out/a_ppt.mp4"); ("/videos/b.mov", "/out/b_ppt.mp4")];
     w_profile := main_cfg; speed := f2; normalize_audio := false; overwrite := true |}.

End Workers.

(** ** Vocabulary for further properties *)

Module Vocabulary.
Import PyFloat PyStr Py Speed.
Local Open Scope string_scope.

(** The presets offered to the user, without the entry that selects the
    custom field. *)
Definition numeric_presets : list string := removelast SPEED_PRESETS.

Definition resolves_to_positive_finite (r : result float) : bool :=
  match r with
  | Ok v => valid v && is_finite v && fgt v f0
  | Raise _ => false
  end.

(** A stream entry [json.loads] returned as a [dict], whose [codec_type] is
    ["audio"] ([audio = true]) or not ([audio = false]). *)
Definition is_stream_dict (audio : bool) (j : Probe.json) : bool :=
  match j with
  | Probe.JDict kv =>
      Bool.eqb (Probe.is_audio (Probe.dict_get kv "codec_type" Probe.JNull)) audio
  | _ => false
  end.

(** A string of ASCII characters only. *)
Definition is_ascii (s : string) : bool :=
  forallb (fun c => nat_of_ascii c <? 128)%nat (list_ascii_of_string s).

(** The log line that shows the command about to be run. *)
Definition cmd_line (cmd : list string) : string := "[CMD] " ++ join " " cmd.

(** The messages of the opening progress calls, in order. *)
Definition started (t : list Eff.event) : list string :=
  flat_map (fun ev =>
              match ev with
              | Eff.EvProgress _ _ msg => if prefix "Converting: " msg then [msg] else []
              | _ => []
              end) t.

End Vocabulary.

(** ** Output path suggestion *)

Module Paths.
Import PyStr.
Local Open Scope string_scope.

(** [s.rfind(c)] for a character [c], counting from [i]. *)
Fixpoint rfind_from (c : ascii) (s : string) (i : nat) : option nat :=
  match s with
  | String a r =>
      match rfind_from c r (S i) with
      | Some j => Some j
      | None => if Ascii.eqb a c then Some i else None
      end
  | EmptyString => None
  end.

Definition rfind (c : ascii) (s : string) : option nat := rfind_from c s 0.

Fixpoint all_dots (s : string) : bool :=
  match s with
  | String c r => Ascii.eqb c "." && all_dots r
  | EmptyString => true
  end.

(** [os.path.splitext] ([posixpath]): the extension starts at the last dot
    of the last component, unless only dots come before it there. *)
Definition splitext (p : string) : string * string :=
  match rfind "." p with
  | None => (p, "")
  | Some d =>
      let start := match rfind "/" p with Some i => S i | None => O end in
      if ((start <=? d)%nat && negb (all_dots (substring start (d - start) p)))%bool
      then (substring 0 d p, substring d (length p - d) p)
      else (p, "")
  end.

Fixpoint ends_with_slash (s : string) : bool :=
  match s with
  | String c r =>
      match r with
      | EmptyString => Ascii.eqb c "/"
      | _ => ends_with_slash r
      end
  | EmptyString => false
  end.

(** [os.path.join(a, b)] ([posixpath]). *)
Definition join_path (a b : string) : string :=
  if prefix "/" b then b
  else if (String.eqb a "" || ends_with_slash a)%bool then a ++ b
  else a ++ "/" ++ b.

Definition suggest_output_path (in_path out_dir : string) : string :=
  let base := fst (splitext (basename in_path)) in
  join_path out_dir (base ++ "_ppt.mp4").

Fixpoint has_dot (s : string) : bool :=
  match s with
  | String c r => (Ascii.eqb c "." || has_dot r)%bool
  | EmptyString => false
  end.

End Paths.

(** ** The window: the file list and the Convert button *)

Module Gui.
Import PyFloat PyStr Py Builder Runner Paths.
Local Open Scope string_scope.

(** The list [self.files] and the rows of the list box [self.file_list]. *)
Record file_panel : Type := {
  files : list string;
  file_list : list string
}.

(** The panel [App.__init__] sets up. *)
Definition empty_panel : file_panel := {| files := []; file_list := [] |}.

(** [p in files] *)
Definition py_in (p : string) (l : list string) : bool := existsb (String.eqb p) l.

(** [App.add_files], [paths] being what the file dialog returned (nothing
    when it was cancelled). *)
Definition add_files (st : file_panel) (paths : list string) : file_panel :=
  fold_left (fun st p =>
               if negb (py_in p (files st))
               then {| files := files st ++ [p]; file_list := file_list st ++ [p] |}
               else st)
            paths st.

(** [App.clear_files] *)
Definition clear_files (st : file_panel) : file_panel :=
  {| files := []; file_list := [] |}.

(** What the user does with the two buttons of the panel. *)
Inductive action : Type :=
| AddFiles (paths : list string)
| ClearFiles.

Definition perform (st : file_panel) (a : action) : file_panel :=
  match a with
  | AddFiles paths => add_files st paths
  | ClearFiles => clear_files st
  end.

(** How one call of [App.convert] ends. *)
Inductive convert_result : Type :=
| NoFiles                                   (* the "No files" dialog *)
| MissingFfmpeg                             (* the "Missing ffmpeg" dialog *)
| CtorRaised (e : exn)                      (* [ConverterWorker(...)] raised *)
| Started (w : worker) (maximum : nat).     (* the worker, and the maximum of the bar *)

(** The list [tasks] of [App.convert]. *)
Definition convert_tasks (files : list string) (out_root : string)
  : list (string * string) :=
  map (fun f => (f, suggest_output_path f out_root)) files.

(** [App.convert], on the values of the widgets; [ffmpeg_found] is the
    answer of [which_ffmpeg], [py_repr] the built-in [repr] on strings. *)
Definition convert (py_repr : string -> string) (ffmpeg_found : bool) (files : list string)
           (out_dir profile speed_preset speed_custom : string)
           (normalize_audio overwrite : bool) : convert_result :=
  match files with
  | [] => NoFiles
  | _ =>
      if negb ffmpeg_found then MissingFfmpeg
      else
        let tasks := convert_tasks files out_dir in
        match make_worker py_repr tasks profile speed_preset speed_custom
                          normalize_audio overwrite with
        | Ok w => Started w (List.length tasks)
        | Raise e => CtorRaised e
        end
  end.

End Gui.

(** * Facts *)

(** ** Exact halving and doubling of binary64 floats *)

Module FloatFacts.
Import PyFloat.

Abbreviation F m e := (S754_finite false m e).

Lemma bounded_cases m e :
  bounded prec emax m e = true <->
  (digits2_pos m = 53%positive /\ -1074 <= e <= 971) \/
  (Zpos (digits2_pos m) < 53 /\ e = -1074).
Proof.
  unfold bounded, canonical_mantissa, fexp, emin, prec, emax.
  rewrite andb_true_iff, Z.eqb_eq, Z.leb_le.
  split.
  - intros [H1 H2].
    destruct (Z.eq_dec (Zpos (digits2_pos m)) 53) as [E|E].
    + left. split; [congruence | lia].
    + right. lia.
  - intros [[H1 H2]|[H1 H2]].
    + rewrite H1. lia.
    + lia.
Qed.

Lemma div_core_pow2 m e e2 :
  Z.max (Zpos (digits2_pos m) + e - (53 + e2) - 53) (-1074) = e - e2 - 53 ->
  SFdiv_core_binary prec emax (Zpos m) e (Zpos 4503599627370496) e2
  = (Zpos m~0, e - e2 - 53, loc_Exact).
Proof.
  intros H.
  unfold SFdiv_core_binary.
  cbn [Zdigits2].
  change (digits2_pos 4503599627370496) with 53%positive.
  unfold fexp, emin, prec, emax.
  change (3 - 1024 - 53) with (-1074).
  rewrite H.
  rewrite Z.min_l by lia.
  replace (e - e2 - (e - e2 - 53)) with 53 by lia.
  cbv zeta iota beta.
  change (IntDef.Z.shiftl (Z.pos m) 53) with (Z.shiftl (Z.pos m) 53).
  rewrite Z.shiftl_mul_pow2 by lia.
  change (IntDef.Z.div_eucl ?a ?b) with (Z.div_eucl a b).
  pose proof (Z.div_eucl_eq (Z.pos m * 2 ^ 53) 4503599627370496 ltac:(lia)) as E.
  pose proof (Z.mod_pos_bound (Z.pos m * 2 ^ 53) 4503599627370496 ltac:(lia)) as B.
  unfold Z.modulo in B.
  destruct (Z.div_eucl (Z.pos m * 2 ^ 53) 4503599627370496) as [q r].
  change (2 ^ 53) with (2 * 4503599627370496) in E.
  assert (r = 0) by lia. subst r.
  assert (q = Z.pos m~0) by lia. subst q.
  reflexivity.
Qed.

Lemma digits_double m : Zdigits2 (Zpos m~0) = Zpos (digits2_pos m) + 1.
Proof. cbn. lia. Qed.

(** Rounding an exact even mantissa: the normal case drops the trailing
    zero bit, the subnormal case keeps it. *)
Lemma round_double_normal s m e :
  digits2_pos m = 53%positive -> -1075 <= e <= 970 ->
  binary_round_aux prec emax s (Zpos m~0) e loc_Exact = S754_finite s m (e + 1).
Proof.
  intros D He.
  unfold binary_round_aux, shr_fexp.
  rewrite digits_double, D.
  unfold fexp, emin, prec, emax.
  change (3 - 1024 - 53) with (-1074).
  replace (Z.max (53 + 1 + e - 53) (-1074) - e) with 1 by lia.
  cbn [shr shr_record_of_loc iter_pos shr_1 shr_m loc_of_shr_record round_nearest_even orb Zdigits2].
  rewrite D.
  replace (IntDef.Z.max (53 + (e + 1) - 53) (-1074) - (e + 1)) with 0 by lia.
  cbn [shr shr_record_of_loc shr_m].
  replace (e + 1 <=? 1024 - 53) with true by (symmetry; apply Z.leb_le; lia).
  reflexivity.
Qed.

Lemma round_double_subnormal s m :
  Zpos (digits2_pos m) < 53 ->
  binary_round_aux prec emax s (Zpos m~0) (-1074) loc_Exact = S754_finite s m~0 (-1074).
Proof.
  intros D.
  unfold binary_round_aux, shr_fexp.
  rewrite digits_double.
  unfold fexp, emin, prec, emax.
  change (3 - 1024 - 53) with (-1074).
  replace (Z.max (Z.pos (digits2_pos m) + 1 + -1074 - 53) (-1074) - -1074) with 0 by lia.
  cbn [shr shr_record_of_loc iter_pos shr_1 shr_m loc_of_shr_record round_nearest_even orb Zdigits2].
  change (Z.pos (digits2_pos m~0)) with (Zdigits2 (Zpos m~0)).
  rewrite digits_double.
  replace (IntDef.Z.max (Z.pos (digits2_pos m) + 1 + -1074 - 53) (-1074) - -1074) with 0 by lia.
  cbn [shr shr_record_of_loc shr_m].
  reflexivity.
Qed.


Lemma digits2_pos_bounds m :
  2 ^ (Zpos (digits2_pos m) - 1) <= Zpos m < 2 ^ Zpos (digits2_pos m).
Proof.
  induction m as [p IH|p IH|]; cbn [digits2_pos].
  - rewrite Pos2Z.inj_succ. change (Z.pos p~1) with (2 * Z.pos p + 1).
    replace (Z.succ (Zpos (digits2_pos p)) - 1) with (Z.succ (Zpos (digits2_pos p) - 1)) by lia.
    rewrite (Z.pow_succ_r 2 (Zpos (digits2_pos p) - 1)) by lia.
    rewrite (Z.pow_succ_r 2 (Zpos (digits2_pos p))) by lia. lia.
  - rewrite Pos2Z.inj_succ. change (Z.pos p~0) with (2 * Z.pos p).
    replace (Z.succ (Zpos (digits2_pos p)) - 1) with (Z.succ (Zpos (digits2_pos p) - 1)) by lia.
    rewrite (Z.pow_succ_r 2 (Zpos (digits2_pos p) - 1)) by lia.
    rewrite (Z.pow_succ_r 2 (Zpos (digits2_pos p))) by lia. lia.
  - cbn. lia.
Qed.

Lemma fgt_two_iff m e :
  fgt (F m e) f2 = true <-> (-51 < e \/ (e = -51 /\ 4503599627370496 < Zpos m)).
Proof.
  unfold fgt, SFltb, f2, SFcompare.
  destruct (Z.compare_spec (-51) e) as [E|E|E].
  - subst e. rewrite Pos.compare_cont_spec, Pos2Z.inj_compare.
    destruct (Z.compare_spec (Zpos 4503599627370496) (Zpos m)) as [E|E|E];
      cbv [Pos.switch_Eq]; split; intros H;
      try discriminate; try reflexivity; try (exfalso; lia); lia.
  - split; intros; [lia | reflexivity].
  - split; intros H; [discriminate | lia].
Qed.

Lemma flt_half_iff m e :
  flt (F m e) f0_5 = true <-> (e < -53 \/ (e = -53 /\ Zpos m < 4503599627370496)).
Proof.
  unfold flt, SFltb, f0_5, SFcompare.
  destruct (Z.compare_spec e (-53)) as [E|E|E].
  - subst e. rewrite Pos.compare_cont_spec, Pos2Z.inj_compare.
    destruct (Z.compare_spec (Zpos m) (Zpos 4503599627370496)) as [E|E|E];
      cbv [Pos.switch_Eq]; split; intros H;
      try discriminate; try reflexivity; try (exfalso; lia); lia.
  - split; intros; [lia | reflexivity].
  - split; intros H; [discriminate | lia].
Qed.

Lemma normal_mantissa m :
  digits2_pos m = 53%positive -> 4503599627370496 <= Zpos m < 9007199254740992.
Proof.
  intros D. pose proof (digits2_pos_bounds m) as B. rewrite D in B.
  change (2 ^ (53 - 1)) with 4503599627370496 in B.
  change (2 ^ 53) with 9007199254740992 in B. exact B.
Qed.

(** Halving a float above 2.0 is exact: the exponent drops by one. *)
Lemma fdiv_two m e :
  bounded prec emax m e = true -> fgt (F m e) f2 = true ->
  fdiv (F m e) f2 = F m (e - 1) /\ bounded prec emax m (e - 1) = true.
Proof.
  intros B G. apply fgt_two_iff in G. apply bounded_cases in B.
  destruct B as [[D He]|[D He]]; [|lia].
  split.
  - unfold fdiv, SFdiv, f2.
    rewrite (div_core_pow2 m e (-51)) by (rewrite D; lia).
    cbn [xorb].
    replace (e - 1) with (e - -51 - 53 + 1) by lia.
    apply round_double_normal; [exact D | lia].
  - apply bounded_cases. left. split; [exact D | lia].
Qed.

(** Dividing a float below 0.5 by 0.5 is exact: a normal number gains one in
    the exponent, a subnormal one doubles its mantissa. *)
Lemma fdiv_half_normal m e :
  digits2_pos m = 53%positive -> -1074 <= e < -53 ->
  fdiv (F m e) f0_5 = F m (e + 1).
Proof.
  intros D He. unfold fdiv, SFdiv, f0_5.
  rewrite (div_core_pow2 m e (-53)) by (rewrite D; lia).
  cbn [xorb].
  replace (e - -53 - 53) with e by lia.
  apply round_double_normal; [exact D | lia].
Qed.

Lemma fdiv_half_subnormal m :
  Zpos (digits2_pos m) < 53 ->
  fdiv (F m (-1074)) f0_5 = F m~0 (-1074).
Proof.
  intros D. unfold fdiv, SFdiv, f0_5.
  rewrite (div_core_pow2 m (-1074) (-53)) by lia.
  cbn [xorb].
  apply round_double_subnormal; exact D.
Qed.

(** *** The rational value of a float *)

Lemma two_neq_0 : ~ (2 == 0)%Q.
Proof. discriminate. Qed.

Lemma pow2_0_l (x : Q) : (x == Qpower 2 (Z.of_nat 0) * x)%Q.
Proof. cbn. ring. Qed.

Lemma pow2_succ (k : nat) : (Qpower 2 (Z.of_nat (S k)) == 2 * Qpower 2 (Z.of_nat k))%Q.
Proof.
  rewrite Nat2Z.inj_succ. unfold Z.succ.
  rewrite Z.add_comm, Qpower_plus by exact two_neq_0. reflexivity.
Qed.

Lemma pow2_pos (z : Z) : (0 < Qpower 2 z)%Q.
Proof. apply Qpower_0_lt. reflexivity. Qed.

Lemma F2Q_succ_exp m e : (F2Q (F m (e + 1)) == 2 * F2Q (F m e))%Q.
Proof.
  unfold F2Q. rewrite Qpower_plus by exact two_neq_0.
  change (Qpower 2 1) with 2%Q. ring.
Qed.

Lemma F2Q_double m e : (F2Q (F (xO m) e) == 2 * F2Q (F m e))%Q.
Proof.
  unfold F2Q. change (Zpos (xO m)) with (2 * Zpos m).
  rewrite inject_Z_mult. change (inject_Z 2) with 2%Q. ring.
Qed.

Lemma F2Q_shift m e (k : nat) :
  (F2Q (F m e) == Qpower 2 (Z.of_nat k) * F2Q (F m (e - Z.of_nat k)))%Q.
Proof.
  unfold F2Q.
  replace e with (Z.of_nat k + (e - Z.of_nat k)) at 1 by lia.
  rewrite Qpower_plus by exact two_neq_0. ring.
Qed.

Lemma F2Q_pos m e : (0 < F2Q (F m e))%Q.
Proof.
  unfold F2Q. apply Qmult_lt_0_compat; [reflexivity | apply pow2_pos].
Qed.

(** A float with exponent at least [-53], in units of [2^-53]. *)
Lemma F2Q_units m e :
  -53 <= e ->
  (F2Q (F m e) == inject_Z (Zpos m * 2 ^ (e + 53)) * (1 # 9007199254740992))%Q.
Proof.
  intros He. unfold F2Q.
  rewrite inject_Z_mult, Zpower_Qpower by lia.
  change (inject_Z 2) with 2%Q.
  rewrite Qpower_plus by exact two_neq_0.
  change (Qpower 2 53) with (9007199254740992 # 1)%Q.
  rewrite <- !Qmult_assoc.
  setoid_replace ((9007199254740992 # 1) * (1 # 9007199254740992))%Q with 1%Q by reflexivity.
  ring.
Qed.

End FloatFacts.

(** ** The Tempo Decomposer *)

Module TempoFacts.
Import PyFloat PyStr Tempo FloatFacts Checks.

Lemma halve_loop_more fuel : forall x fs r,
  halve_loop fuel x fs = Some r -> halve_loop (S fuel) x fs = Some r.
Proof.
  induction fuel as [|k IH]; intros x fs r H.
  - cbn in *. destruct (fgt x f2); [discriminate | exact H].
  - cbn [halve_loop] in *. destruct (fgt x f2); [apply IH; exact H | exact H].
Qed.

Lemma double_loop_more fuel : forall x fs r,
  double_loop fuel x fs = Some r -> double_loop (S fuel) x fs = Some r.
Proof.
  induction fuel as [|k IH]; intros x fs r H.
  - cbn in *. destruct (flt x f0_5); [discriminate | exact H].
  - cbn [double_loop] in *. destruct (flt x f0_5); [apply IH; exact H | exact H].
Qed.

Lemma halve_loop_mono n fuel x fs r :
  (n <= fuel)%nat -> halve_loop n x fs = Some r -> halve_loop fuel x fs = Some r.
Proof.
  induction 1 as [|k _ IH]; intros H; [exact H | apply halve_loop_more, IH, H].
Qed.

Lemma double_loop_mono n fuel x fs r :
  (n <= fuel)%nat -> double_loop n x fs = Some r -> double_loop fuel x fs = Some r.
Proof.
  induction 1 as [|k _ IH]; intros H; [exact H | apply double_loop_more, IH, H].
Qed.

Lemma halve_loop_ok fuel : forall m e fs,
  bounded prec emax m e = true -> e + 52 <= Z.of_nat fuel ->
  exists k : nat,
    halve_loop fuel (F m e) fs = Some (F m (e - Z.of_nat k), fs ++ repeat f2 k)
    /\ bounded prec emax m (e - Z.of_nat k) = true
    /\ fgt (F m (e - Z.of_nat k)) f2 = false
    /\ (k <> O -> -52 <= e - Z.of_nat k).
Proof.
  induction fuel as [|n IH]; intros m e fs B Hf.
  - exists O. cbn [halve_loop repeat Z.of_nat]. rewrite Z.sub_0_r, app_nil_r.
    destruct (fgt (F m e) f2) eqn:G.
    + apply fgt_two_iff in G. lia.
    + repeat split; solve [exact B | congruence | reflexivity].
  - cbn [halve_loop].
    destruct (fgt (F m e) f2) eqn:G.
    + destruct (fdiv_two m e B G) as [E B'].
      rewrite E. apply fgt_two_iff in G.
      destruct (IH m (e - 1) (fs ++ [f2]) B' ltac:(lia)) as (k & H1 & H2 & H3 & H4).
      exists (S k).
      replace (e - Z.of_nat (S k)) with (e - 1 - Z.of_nat k) by lia.
      rewrite H1, <- app_assoc. cbn [repeat List.app].
      repeat split; [exact H2 | exact H3 | ].
      intros _. destruct k as [|k']; [cbn; lia | ].
      specialize (H4 ltac:(discriminate)). exact H4.
    + exists O. cbn [repeat Z.of_nat]. rewrite Z.sub_0_r, app_nil_r.
      repeat split; solve [exact B | congruence | reflexivity].
Qed.

Lemma double_loop_ok fuel : forall m e fs,
  bounded prec emax m e = true ->
  (-53 - e) + (53 - Zpos (digits2_pos m)) <= Z.of_nat fuel ->
  exists (j : nat) m' e',
    double_loop fuel (F m e) fs = Some (F m' e', fs ++ repeat f0_5 j)
    /\ bounded prec emax m' e' = true
    /\ flt (F m' e') f0_5 = false
    /\ (F2Q (F m' e') == Qpower 2 (Z.of_nat j) * F2Q (F m e))%Q
    /\ (j <> O -> e' = -53)
    /\ (j = O -> m' = m /\ e' = e)
    /\ Z.of_nat j <= Z.max 0 ((-53 - e) + (53 - Zpos (digits2_pos m))).
Proof.
  induction fuel as [|n IH]; intros m e fs B Hf.
  - exists O, m, e. cbn [double_loop repeat Z.of_nat]. rewrite app_nil_r.
    destruct (flt (F m e) f0_5) eqn:L.
    + apply flt_half_iff in L. apply bounded_cases in B.
      destruct B as [[D He]|[D He]].
      * pose proof (normal_mantissa m D). rewrite D in Hf. lia.
      * lia.
    + split; [reflexivity | ]. split; [exact B | ]. split; [congruence | ].
      split; [apply pow2_0_l | ]. split; [congruence | ].
      split; [intros _; split; reflexivity | cbn [Z.of_nat]; lia].
  - cbn [double_loop].
    destruct (flt (F m e) f0_5) eqn:L.
    + apply flt_half_iff in L. pose proof B as B0. apply bounded_cases in B.
      destruct B as [[D He]|[D He]].
      * pose proof (normal_mantissa m D) as Hm.
        rewrite (fdiv_half_normal m e D ltac:(lia)).
        assert (B' : bounded prec emax m (e + 1) = true)
          by (apply bounded_cases; left; split; [exact D | lia]).
        destruct (IH m (e + 1) (fs ++ [f0_5]) B' ltac:(rewrite D in *; lia))
          as (j & m' & e' & H1 & H2 & H3 & H4 & H5 & H6 & H7).
        exists (S j), m', e'.
        rewrite H1, <- app_assoc. cbn [repeat List.app].
        split; [reflexivity | ]. split; [exact H2 | ]. split; [exact H3 | ].
        split; [ | split; [ | split; [discriminate | ]]].
        -- rewrite H4, F2Q_succ_exp, pow2_succ. ring.
        -- intros _. destruct j as [|j']; [ | apply H5; discriminate].
           destruct (H6 eq_refl) as [-> ->].
           destruct (Z_lt_le_dec (e + 1) (-53)) as [C|C]; [ | lia].
           exfalso.
           assert (X : flt (F m (e + 1)) f0_5 = true) by (apply flt_half_iff; lia).
           congruence.
        -- rewrite D in *. lia.
      * subst e.
        rewrite (fdiv_half_subnormal m D).
        assert (B' : bounded prec emax (xO m) (-1074) = true).
        { apply bounded_cases. cbn [digits2_pos]. rewrite Pos2Z.inj_succ.
          destruct (Z.eq_dec (Z.succ (Zpos (digits2_pos m))) 53) as [E|E].
          - left. split; [lia | lia].
          - right. lia. }
        destruct (IH (xO m) (-1074) (fs ++ [f0_5]) B'
                    ltac:(cbn [digits2_pos]; rewrite Pos2Z.inj_succ; lia))
          as (j & m' & e' & H1 & H2 & H3 & H4 & H5 & H6 & H7).
        exists (S j), m', e'.
        rewrite H1, <- app_assoc. cbn [repeat List.app].
        split; [reflexivity | ]. split; [exact H2 | ]. split; [exact H3 | ].
        split; [ | split; [ | split; [discriminate | ]]].
        -- rewrite H4, F2Q_double, pow2_succ. ring.
        -- intros _. destruct j as [|j']; [ | apply H5; discriminate].
           destruct (H6 eq_refl) as [-> ->].
           exfalso. assert (X : flt (F (xO m) (-1074)) f0_5 = true) by (apply flt_half_iff; lia).
           congruence.
        -- cbn [digits2_pos] in H7. rewrite Pos2Z.inj_succ in H7. lia.
    + exists O, m, e. cbn [repeat Z.of_nat]. rewrite app_nil_r.
      split; [reflexivity | ]. split; [exact B | ]. split; [congruence | ].
      split; [apply pow2_0_l | ]. split; [congruence | ].
      split; [intros _; split; reflexivity | cbn [Z.of_nat]; lia].
Qed.

Lemma div_half_even_spec a b :
  0 <= a -> 0 < b ->
  - b <= 2 * (div_half_even a b * b - a) <= b.
Proof.
  intros Ha Hb. unfold div_half_even.
  pose proof (Z.div_mod a b ltac:(lia)) as E.
  pose proof (Z.mod_pos_bound a b Hb) as R.
  destruct (Z.compare_spec (2 * (a mod b)) b) as [C|C|C];
    [destruct (Z.even (a / b)) | | ]; nia.
Qed.

Lemma snap_table : forallb snap_ok (map Z.of_nat (seq 500 1501)) = true.
Proof. vm_compute. reflexivity. Qed.

Lemma snap_ok_range n : 500 <= n <= 2000 -> snap_ok n = true.
Proof.
  intros Hn.
  pose proof snap_table as T. rewrite forallb_forall in T.
  apply T. rewrite in_map_iff. exists (Z.to_nat n).
  split; [lia | apply in_seq; lia].
Qed.

(** A float that is neither above 2.0 nor below 0.5. *)
Lemma remainder_shape m e :
  bounded prec emax m e = true ->
  fgt (F m e) f2 = false -> flt (F m e) f0_5 = false ->
  -53 <= e <= -51 /\ 4503599627370496 <= Zpos m < 9007199254740992
  /\ (e = -51 -> Zpos m = 4503599627370496).
Proof.
  intros B G L.
  assert (G' : ~ (-51 < e \/ (e = -51 /\ 4503599627370496 < Zpos m)))
    by (rewrite <- fgt_two_iff; congruence).
  assert (L' : ~ (e < -53 \/ (e = -53 /\ Zpos m < 4503599627370496)))
    by (rewrite <- flt_half_iff; congruence).
  apply bounded_cases in B. destruct B as [[D He]|[D He]]; [ | lia].
  pose proof (normal_mantissa m D). lia.
Qed.

(** Evaluate the closed powers of two of the goal and of the hypotheses. *)
Ltac eval_pows :=
  repeat match goal with
  | |- context [Z.pow 2 ?x] =>
      let v := eval vm_compute in (Z.pow 2 x) in
      progress change (Z.pow 2 x) with v
  | H : context [Z.pow 2 ?x] |- _ =>
      let v := eval vm_compute in (Z.pow 2 x) in
      progress change (Z.pow 2 x) with v in H
  end.

Lemma round3_core m e :
  bounded prec emax m e = true ->
  fgt (F m e) f2 = false -> flt (F m e) f0_5 = false ->
  exists m' e',
    round3 (F m e) = F m' e'
    /\ -53 <= e' <= -51
    /\ fle f0_5 (F m' e') = true /\ fle (F m' e') f2 = true
    /\ Z.abs (Zpos m' * 2 ^ (e' + 53) - Zpos m * 2 ^ (e + 53)) * 1000
       <= 5 * (Zpos m * 2 ^ (e + 53))
    /\ (isclose (F m' e') f1 f1e_3 f1e_3 = true ->
        Z.abs (2 ^ 53 - Zpos m * 2 ^ (e + 53)) * 1000 <= 5 * (Zpos m * 2 ^ (e + 53))).
Proof.
  intros B G L.
  destruct (remainder_shape m e B G L) as (He & Hm & Htop).
  unfold round3.
  replace (0 <=? e) with false by (symmetry; apply Z.leb_gt; lia).
  set (n := div_half_even (Zpos m * 1000) (2 ^ (- e))).
  assert (Hn : - 2 ^ (- e) <= 2 * (n * 2 ^ (- e) - Zpos m * 1000) <= 2 ^ (- e)).
  { apply div_half_even_spec; [lia | apply Z.pow_pos_nonneg; lia]. }
  clearbody n.
  assert (Hcase : e = -53 \/ e = -52 \/ e = -51) by lia.
  assert (Hrange : 500 <= n <= 2000).
  { destruct Hcase as [->|[->| ->]]; eval_pows; [lia | lia | specialize (Htop eq_refl); lia]. }
  pose proof (snap_ok_range n Hrange) as S. unfold snap_ok in S.
  destruct (of_decimal false n (-3)) as [ | | |s' m' e']; try discriminate.
  destruct s'; [discriminate | ].
  rewrite !andb_true_iff in S.
  destruct S as (((((S1 & S2) & S3) & S4) & S5) & S6).
  apply Z.leb_le in S1, S2, S5.
  exists m', e'.
  split; [reflexivity | ]. split; [lia | ]. split; [exact S3 | ]. split; [exact S4 | ].
  assert (Hcase' : e' = -53 \/ e' = -52 \/ e' = -51) by lia.
  split.
  - destruct Hcase as [->|[->| ->]]; destruct Hcase' as [->|[->| ->]];
      eval_pows; try specialize (Htop eq_refl); lia.
  - intros C. rewrite C in S6. cbn [implb] in S6. apply Z.leb_le in S6.
    destruct Hcase as [->|[->| ->]];
      eval_pows; try specialize (Htop eq_refl); lia.
Qed.

Lemma product_cons x l : (product (x :: l) == x * product l)%Q.
Proof. reflexivity. Qed.

Lemma product_app l1 l2 : (product (l1 ++ l2) == product l1 * product l2)%Q.
Proof.
  induction l1 as [|x l IH].
  - change (product ([] ++ l2)) with (product l2). change (product []) with 1%Q. ring.
  - change (product ((x :: l) ++ l2)) with (x * product (l ++ l2))%Q.
    rewrite product_cons, IH. ring.
Qed.

Lemma F2Q_f2 : (F2Q f2 == 2)%Q.
Proof. vm_compute. reflexivity. Qed.

Lemma F2Q_f0_5 : (F2Q f0_5 * 2 == 1)%Q.
Proof. vm_compute. reflexivity. Qed.

Lemma F2Q_f1 : (F2Q f1 == 1)%Q.
Proof. vm_compute. reflexivity. Qed.

Lemma product_twos k : (product (map F2Q (repeat f2 k)) == Qpower 2 (Z.of_nat k))%Q.
Proof.
  induction k as [|k IH].
  - reflexivity.
  - cbn [repeat map]. rewrite product_cons, IH, pow2_succ, F2Q_f2. reflexivity.
Qed.

Lemma product_halves j :
  (product (map F2Q (repeat f0_5 j)) * Qpower 2 (Z.of_nat j) == 1)%Q.
Proof.
  induction j as [|j IH].
  - reflexivity.
  - cbn [repeat map]. rewrite product_cons, pow2_succ.
    setoid_replace (F2Q f0_5 * product (map F2Q (repeat f0_5 j)) * (2 * Qpower 2 (Z.of_nat j)))%Q
      with ((F2Q f0_5 * 2) * (product (map F2Q (repeat f0_5 j)) * Qpower 2 (Z.of_nat j)))%Q by ring.
    rewrite IH, F2Q_f0_5. reflexivity.
Qed.

(** Scaling both sides keeps a relative bound. *)
Lemma close_scaled (c x y t : Q) :
  (0 < c)%Q -> (Qabs (x - y) <= t * y)%Q -> (Qabs (c * x - c * y) <= t * (c * y))%Q.
Proof.
  intros Hc H.
  setoid_replace (c * x - c * y)%Q with (c * (x - y))%Q by ring.
  rewrite Qabs_Qmult, (Qabs_pos c) by (apply Qlt_le_weak; exact Hc).
  setoid_replace (t * (c * y))%Q with (c * (t * y))%Q by ring.
  apply Qmult_le_l; assumption.
Qed.

(** From an integer bound in units of [2^-53] to the rational bound. *)
Lemma close_units (x y : Q) (A' A : Z) :
  (x == inject_Z A' * (1 # 9007199254740992))%Q ->
  (y == inject_Z A * (1 # 9007199254740992))%Q ->
  Z.abs (A' - A) * 1000 <= 5 * A ->
  (Qabs (x - y) <= (5 # 1000) * y)%Q.
Proof.
  intros Hx Hy H.
  assert (H1 : 1000 * A' <= 1005 * A) by lia.
  assert (H2 : 995 * A <= 1000 * A') by lia.
  rewrite Zle_Qle in H1, H2. rewrite !inject_Z_mult in H1, H2.
  change (inject_Z 1000) with 1000%Q in H1, H2.
  change (inject_Z 1005) with 1005%Q in H1.
  change (inject_Z 995) with 995%Q in H2.
  set (a := inject_Z A') in *. set (b := inject_Z A) in *.
  assert (K : (Qabs (a - b) <= (5 # 1000) * b)%Q)
    by (clearbody a b; apply Qabs_Qle_condition; split; lra).
  pose proof (close_scaled (1 # 9007199254740992) a b (5 # 1000) eq_refl K) as K'.
  rewrite Hx, Hy.
  setoid_replace (a * (1 # 9007199254740992) - b * (1 # 9007199254740992))%Q
    with ((1 # 9007199254740992) * a - (1 # 9007199254740992) * b)%Q by ring.
  setoid_replace ((5 # 1000) * (b * (1 # 9007199254740992)))%Q
    with ((5 # 1000) * ((1 # 9007199254740992) * b))%Q by ring.
  exact K'.
Qed.

Lemma in_stage_range_f2 : in_stage_range f2 = true.
Proof. reflexivity. Qed.

Lemma in_stage_range_f0_5 : in_stage_range f0_5 = true.
Proof. reflexivity. Qed.

Lemma Forall_repeat {A} (P : A -> Prop) (x : A) n : P x -> Forall P (repeat x n).
Proof. intros H. induction n; cbn; constructor; assumption. Qed.

(** What one call does on a positive finite float, given fuel 1100. *)
Lemma factors_spec m e fuel :
  bounded prec emax m e = true -> (1100 <= fuel)%nat ->
  exists (k j : nat) m1 e1 m3 e3,
    (k <= 1023)%nat /\ (j <= 1073)%nat
    /\ halve_loop fuel (F m e) [] = Some (F m (e - Z.of_nat k), repeat f2 k)
    /\ fgt (F m (e - Z.of_nat k)) f2 = false
    /\ double_loop fuel (F m (e - Z.of_nat k)) (repeat f2 k)
       = Some (F m1 e1, repeat f2 k ++ repeat f0_5 j)
    /\ flt (F m1 e1) f0_5 = false
    /\ fgt (F m1 e1) f2 = false
    /\ round3 (F m1 e1) = F m3 e3
    /\ in_stage_range (F m3 e3) = true
    /\ atempo_factors fuel (F m e)
       = Some (if negb (isclose (F m3 e3) f1 f1e_3 f1e_3)
               then (repeat f2 k ++ repeat f0_5 j) ++ [F m3 e3]
               else repeat f2 k ++ repeat f0_5 j)
    /\ (F2Q (F m e) == product (map F2Q (repeat f2 k ++ repeat f0_5 j)) * F2Q (F m1 e1))%Q
    /\ (Qabs (F2Q (F m3 e3) - F2Q (F m1 e1)) <= (5 # 1000) * F2Q (F m1 e1))%Q
    /\ (isclose (F m3 e3) f1 f1e_3 f1e_3 = true ->
        (Qabs (1 - F2Q (F m1 e1)) <= (5 # 1000) * F2Q (F m1 e1))%Q).
Proof.
  intros B Hfuel.
  assert (Be : -1074 <= e <= 971).
  { apply bounded_cases in B. destruct B as [[_ ?]|[_ ?]]; lia. }
  pose proof (digits2_pos_bounds m) as Hd0.
  assert (Hd : 1 <= Zpos (digits2_pos m)) by lia.
  destruct (halve_loop_ok fuel m e [] B ltac:(lia)) as (k & H1 & H2 & H3 & H4).
  cbn [List.app] in H1.
  assert (Hk : (k <= 1023)%nat) by (destruct (Nat.eq_dec k 0); [lia | specialize (H4 n); lia]).
  destruct (double_loop_ok fuel m (e - Z.of_nat k) (repeat f2 k) H2 ltac:(lia))
    as (j & m1 & e1 & D1 & D2 & D3 & D4 & D5 & D6 & D7).
  assert (G1 : fgt (F m1 e1) f2 = false).
  { destruct (Nat.eq_dec j 0) as [J|J].
    - destruct (D6 J) as [-> ->]. exact H3.
    - specialize (D5 J). subst e1.
      destruct (fgt (F m1 (-53)) f2) eqn:G; [ | reflexivity].
      apply fgt_two_iff in G. lia. }
  destruct (round3_core m1 e1 D2 G1 D3) as (m3 & e3 & R1 & R2 & R3 & R4 & R5 & R6).
  assert (Be1 : -53 <= e1 <= -51) by (apply (remainder_shape m1 e1 D2 G1 D3)).
  exists k, j, m1, e1, m3, e3.
  split; [exact Hk | ]. split; [lia | ]. split; [exact H1 | ]. split; [exact H3 | ].
  split; [exact D1 | ]. split; [exact D3 | ]. split; [exact G1 | ]. split; [exact R1 | ].
  split; [unfold in_stage_range; rewrite R3, R4; reflexivity | ].
  split.
  { unfold atempo_factors.
    replace (fle (F m e) f0) with false by reflexivity.
    rewrite H1, D1, R1. reflexivity. }
  split.
  { rewrite map_app, product_app, product_twos.
    rewrite (F2Q_shift m e k), D4.
    pose proof (product_halves j) as P.
    set (p := product (map F2Q (repeat f0_5 j))) in *.
    set (v := F2Q (F m (e - Z.of_nat k))).
    setoid_replace (Qpower 2 (Z.of_nat k) * p * (Qpower 2 (Z.of_nat j) * v))%Q
      with (Qpower 2 (Z.of_nat k) * (p * Qpower 2 (Z.of_nat j)) * v)%Q by ring.
    rewrite P. ring. }
  split.
  - apply (close_units _ _ (Zpos m3 * 2 ^ (e3 + 53)) (Zpos m1 * 2 ^ (e1 + 53)));
      [apply F2Q_units; lia | apply F2Q_units; lia | exact R5].
  - intros C.
    apply (close_units _ _ (2 ^ 53) (Zpos m1 * 2 ^ (e1 + 53)));
      [vm_compute; reflexivity | apply F2Q_units; lia | exact (R6 C)].
Qed.

Lemma fle_two_of_not_gt m e : fgt (F m e) f2 = false -> fle (F m e) f2 = true.
Proof.
  intros G.
  assert (G' : ~ (-51 < e \/ (e = -51 /\ 4503599627370496 < Zpos m)))
    by (rewrite <- fgt_two_iff; congruence).
  unfold fle, SFleb, f2, SFcompare.
  destruct (Z.compare_spec e (-51)) as [E|E|E]; [ | reflexivity | lia].
  rewrite Pos.compare_cont_spec, Pos2Z.inj_compare.
  destruct (Z.compare_spec (Zpos m) (Zpos 4503599627370496)) as [E'|E'|E'];
    cbv [Pos.switch_Eq]; [reflexivity | reflexivity | lia].
Qed.

Lemma fge_half_of_not_lt m e : flt (F m e) f0_5 = false -> fge (F m e) f0_5 = true.
Proof.
  intros L.
  assert (L' : ~ (e < -53 \/ (e = -53 /\ Zpos m < 4503599627370496)))
    by (rewrite <- flt_half_iff; congruence).
  unfold fge, SFleb, f0_5, SFcompare.
  destruct (Z.compare_spec (-53) e) as [E|E|E]; [ | reflexivity | lia].
  rewrite Pos.compare_cont_spec, Pos2Z.inj_compare.
  destruct (Z.compare_spec (Zpos 4503599627370496) (Zpos m)) as [E'|E'|E'];
    cbv [Pos.switch_Eq]; [reflexivity | reflexivity | lia].
Qed.

(** On [+inf] the first loop never ends. *)
Lemma halve_loop_inf fuel : forall fs, halve_loop fuel finf fs = None.
Proof.
  induction fuel as [|n IH]; intros fs; cbn [halve_loop].
  - reflexivity.
  - change (fgt finf f2) with true. cbn iota. change (fdiv finf f2) with finf. apply IH.
Qed.

Lemma atempo_factors_inf fuel : atempo_factors fuel finf = None.
Proof.
  unfold atempo_factors. change (fle finf f0) with false. cbn iota.
  rewrite halve_loop_inf. reflexivity.
Qed.

Lemma build_atempo_expr_some float_str fuel s fs :
  atempo_factors fuel s = Some fs ->
  exists expr, build_atempo_expr float_str fuel s = Some expr.
Proof.
  intros H. unfold build_atempo_expr. rewrite H.
  destruct fs; eexists; reflexivity.
Qed.

(** A positive finite binary64 float. *)
Lemma positive_finite_shape s :
  valid s = true -> is_finite s = true -> fgt s f0 = true ->
  exists m e, s = F m e /\ bounded prec emax m e = true.
Proof.
  intros V Fi P. destruct s as [sg|sg| |sg m e]; try discriminate.
  destruct sg; [discriminate | ]. exists m, e. split; [reflexivity | exact V].
Qed.

(** C9. For every finite speed [s > 0], [build_atempo_expr s] terminates:
    with fuel 1100 (or more) the halving loop stops after at most 1023
    halvings at a remainder [<= 2.0], the doubling loop stops after at most
    1073 doublings at a remainder [>= 0.5], and the call returns an
    expression. On [+inf] the first loop never stops, whatever the fuel. *)
Theorem build_atempo_expr_terminates :
  (forall (float_str : float -> string) (s : float),
      valid s = true -> is_finite s = true -> fgt s f0 = true ->
      forall fuel, (1100 <= fuel)%nat ->
      exists (k j : nat) (r r' : float) (expr : string),
        (k <= 1023)%nat /\ (j <= 1073)%nat
        /\ halve_loop fuel s [] = Some (r, repeat f2 k)
        /\ fle r f2 = true
        /\ double_loop fuel r (repeat f2 k) = Some (r', repeat f2 k ++ repeat f0_5 j)
        /\ fge r' f0_5 = true
        /\ build_atempo_expr float_str fuel s = Some expr)
  /\ (forall (float_str : float -> string) (fuel : nat),
         halve_loop fuel finf [] = None
         /\ build_atempo_expr float_str fuel finf = None).
Proof.
  split.
  - intros float_str s V Fi P fuel Hfuel.
    destruct (positive_finite_shape s V Fi P) as (m & e & -> & B).
    destruct (factors_spec m e fuel B Hfuel)
      as (k & j & m1 & e1 & m3 & e3 & Hk & Hj & H1 & H2 & H3 & H4 & _ & _ & _ & H5 & _).
    destruct (build_atempo_expr_some float_str fuel (F m e) _ H5) as [expr Hexpr].
    exists k, j, (F m (e - Z.of_nat k)), (F m1 e1), expr.
    split; [exact Hk | ]. split; [exact Hj | ]. split; [exact H1 | ].
    split; [apply fle_two_of_not_gt; exact H2 | ]. split; [exact H3 | ].
    split; [apply fge_half_of_not_lt; exact H4 | exact Hexpr].
  - intros float_str fuel. split; [apply halve_loop_inf | ].
    unfold build_atempo_expr. rewrite atempo_factors_inf. reflexivity.
Qed.

Lemma build_atempo_expr_terminates_witness :
  exists (k j : nat) (r r' : float) (expr : string),
    (k <= 1023)%nat /\ (j <= 1073)%nat
    /\ halve_loop 1100 (F 4503599627370496 (-50)) [] = Some (r, repeat f2 k)
    /\ fle r f2 = true
    /\ double_loop 1100 r (repeat f2 k) = Some (r', repeat f2 k ++ repeat f0_5 j)
    /\ fge r' f0_5 = true
    /\ build_atempo_expr (fun _ => "2.0"%string) 1100 (F 4503599627370496 (-50)) = Some expr.
Proof.
  apply (proj1 build_atempo_expr_terminates (fun _ => "2.0"%string)
           (F 4503599627370496 (-50)) eq_refl eq_refl eq_refl 1100%nat).
  apply Nat.le_refl.
Defined.

Lemma forallb_repeat {A} (p : A -> bool) (x : A) n : p x = true -> forallb p (repeat x n) = true.
Proof. intros H. induction n; cbn; [reflexivity | rewrite H; assumption]. Qed.

Lemma product_pos l : Forall (fun q => 0 < q)%Q l -> (0 < product l)%Q.
Proof.
  induction 1 as [|x l Hx _ IH].
  - reflexivity.
  - rewrite product_cons. apply Qmult_lt_0_compat; assumption.
Qed.

Lemma loop_factors_pos k j :
  (0 < product (map F2Q (repeat f2 k ++ repeat f0_5 j)))%Q.
Proof.
  apply product_pos. rewrite map_app, !map_repeat.
  apply Forall_app. split; apply Forall_repeat; apply F2Q_pos.
Qed.

Lemma emitted_snoc fuel s (l : list float) (x : float) :
  atempo_factors fuel s = Some (l ++ [x]) -> emitted_factors fuel s = Some (l ++ [x]).
Proof. intros H. unfold emitted_factors. rewrite H. destruct l; reflexivity. Qed.

(** C1 (amended). For every finite speed [s > 0], with fuel 1100 or more the
    Tempo Decomposer returns; every emitted factor lies in [0.5, 2.0], and
    the product of the emitted factors is within 0.5 percent of [s]. *)
Theorem emitted_factors_product :
  forall s : float,
    valid s = true -> is_finite s = true -> fgt s f0 = true ->
    forall fuel, (1100 <= fuel)%nat ->
    exists fs : list float,
      emitted_factors fuel s = Some fs
      /\ forallb in_stage_range fs = true
      /\ (Qabs (product (map F2Q fs) - F2Q s) <= (5 # 1000) * F2Q s)%Q.
Proof.
  intros s V Fi P fuel Hfuel.
  destruct (positive_finite_shape s V Fi P) as (m & e & -> & B).
  destruct (factors_spec m e fuel B Hfuel)
    as (k & j & m1 & e1 & m3 & e3 & _ & _ & _ & _ & _ & _ & _ & _ & R & A & Q1 & Q2 & Q3).
  set (lf := repeat f2 k ++ repeat f0_5 j) in *.
  assert (Hlf : forallb in_stage_range lf = true).
  { unfold lf. rewrite forallb_app, !forallb_repeat; reflexivity. }
  pose proof (loop_factors_pos k j) as Hc. fold lf in Hc.
  destruct (isclose (F m3 e3) f1 f1e_3 f1e_3) eqn:C; cbn [negb] in A.
  - (* the residual is dropped *)
    specialize (Q3 eq_refl).
    assert (Hq : (Qabs (product (map F2Q lf) * 1 - product (map F2Q lf) * F2Q (F m1 e1))
                  <= (5 # 1000) * (product (map F2Q lf) * F2Q (F m1 e1)))%Q)
      by (apply close_scaled; assumption).
    destruct lf as [|f l] eqn:E.
    + exists [f1]. split; [unfold emitted_factors; rewrite A; reflexivity | ].
      split; [reflexivity | ].
      rewrite Q1. cbn [map]. rewrite product_cons, F2Q_f1.
      change (product []) with 1%Q in *. exact Hq.
    + exists (f :: l). split; [unfold emitted_factors; rewrite A; reflexivity | ].
      split; [exact Hlf | ].
      rewrite Q1.
      setoid_replace (product (map F2Q (f :: l)))
        with (product (map F2Q (f :: l)) * 1)%Q at 1 by ring.
      exact Hq.
  - (* the residual is the last factor *)
    exists (lf ++ [F m3 e3]).
    split; [apply emitted_snoc; exact A | ].
    split; [rewrite forallb_app, Hlf; cbn; rewrite R; reflexivity | ].
    rewrite Q1, map_app, product_app. cbn [map]. rewrite product_cons.
    change (product []) with 1%Q.
    setoid_replace (F2Q (F m3 e3) * 1)%Q with (F2Q (F m3 e3)) by ring.
    apply close_scaled; assumption.
Qed.

Lemma emitted_factors_product_witness :
  exists fs : list float,
    emitted_factors 1100 (F 5179139571476070 (-52)) = Some fs
    /\ forallb in_stage_range fs = true
    /\ (Qabs (product (map F2Q fs) - F2Q (F 5179139571476070 (-52)))
        <= (5 # 1000) * F2Q (F 5179139571476070 (-52)))%Q.
Proof.
  apply (emitted_factors_product (F 5179139571476070 (-52)) eq_refl eq_refl eq_refl 1100%nat).
  apply Nat.le_refl.
Defined.

(** C1 as stated fails at the positive speed [+inf]: the call never
    returns, whatever the fuel. *)
Lemma emitted_factors_inf_diverges :
  valid finf = true /\ fgt finf f0 = true
  /\ forall fuel, emitted_factors fuel finf = None.
Proof.
  split; [reflexivity | ]. split; [reflexivity | ].
  intros fuel. unfold emitted_factors. rewrite atempo_factors_inf. reflexivity.
Qed.
End TempoFacts.

(** ** Speed resolution *)

Module SpeedFacts.
Import PyFloat PyStr Py Speed.
Local Open Scope string_scope.

(** C7. Speed resolution maps the preset "2.0x" to 2.0 and the custom inputs
    "1.15x", "abc" and "-3" to 1.15, 1.0 and 1.0; and for every custom input
    string, whatever [float] makes of it, the resolved multiplier is
    greater than 0. *)
Theorem parse_speed_resolves :
  (forall custom, parse_speed "2.0x" custom = Ok f2)
  /\ parse_speed "Custom…" "1.15x" = Ok (S754_finite false 5179139571476070 (-52))
  /\ parse_speed "Custom…" "abc" = Ok f1
  /\ parse_speed "Custom…" "-3" = Ok f1
  /\ (forall (py_float : string -> result float) (custom : string),
         exists v, parse_speed_with py_float "Custom…" custom = Ok v /\ fgt v f0 = true).
Proof.
  split; [intros custom; vm_compute; reflexivity | ].
  split; [vm_compute; reflexivity | ].
  split; [vm_compute; reflexivity | ].
  split; [vm_compute; reflexivity | ].
  intros py_float custom. unfold parse_speed_with.
  replace ("Custom…" =? "Custom…") with true by reflexivity.
  destruct (py_float _) as [v|e].
  - destruct (fgt v f0) eqn:G.
    + exists v. split; [reflexivity | exact G].
    + exists f1. split; reflexivity.
  - exists f1. split; reflexivity.
Qed.

End SpeedFacts.

(** ** The Command Builder *)

Module BuilderFacts.
Import PyFloat PyStr Py Tempo Builder FloatFacts TempoFacts.
Local Open Scope string_scope.

Lemma atempo_factors_nonpositive fuel s :
  fle s f0 = true -> atempo_factors fuel s = atempo_factors fuel f1.
Proof.
  intros H. unfold atempo_factors. rewrite H.
  change (fle f1 f0) with false. reflexivity.
Qed.

(** The Tempo Decomposer returns on every float but [+inf]. *)
Lemma atempo_factors_total fuel s :
  valid s = true -> s <> finf -> (1100 <= fuel)%nat ->
  exists fs, atempo_factors fuel s = Some fs.
Proof.
  intros V Hs Hfuel.
  assert (H1 : exists fs, atempo_factors fuel f1 = Some fs).
  { destruct (factors_spec 4503599627370496 (-52) fuel eq_refl Hfuel)
      as (k & j & m1 & e1 & m3 & e3 & _ & _ & _ & _ & _ & _ & _ & _ & _ & A & _).
    eexists. exact A. }
  destruct s as [sg|sg| |sg m e].
  - rewrite atempo_factors_nonpositive by (destruct sg; reflexivity). exact H1.
  - destruct sg; [ | exfalso; apply Hs; reflexivity].
    rewrite atempo_factors_nonpositive by reflexivity. exact H1.
  - destruct fuel; vm_compute; eexists; reflexivity.
  - destruct sg.
    + rewrite atempo_factors_nonpositive by reflexivity. exact H1.
    + destruct (factors_spec m e fuel V Hfuel)
        as (k & j & m1 & e1 & m3 & e3 & _ & _ & _ & _ & _ & _ & _ & _ & _ & A & _).
      eexists. exact A.
Qed.

Lemma build_ffmpeg_cmd_total float_str fuel inp outp cfg speed loud_norm add_silence :
  valid speed = true -> speed <> finf -> (1100 <= fuel)%nat ->
  exists cmd,
    build_ffmpeg_cmd float_str fuel inp outp cfg speed loud_norm add_silence = Some cmd.
Proof.
  intros V Hs Hfuel. unfold build_ffmpeg_cmd, audio_filters.
  destruct add_silence; [eexists; reflexivity | ].
  destruct (speed_changed speed); [ | eexists; reflexivity].
  destruct (atempo_factors_total fuel speed V Hs Hfuel) as [fs A].
  destruct (build_atempo_expr_some float_str fuel speed fs A) as [expr E].
  rewrite E. eexists. reflexivity.
Qed.

(** Every produced command starts with the video arguments. *)
Lemma build_ffmpeg_cmd_base float_str fuel inp outp cfg speed loud_norm add_silence cmd :
  build_ffmpeg_cmd float_str fuel inp outp cfg speed loud_norm add_silence = Some cmd ->
  exists rest, cmd = (base_cmd float_str inp cfg speed ++ rest)%list.
Proof.
  unfold build_ffmpeg_cmd. destruct add_silence.
  - intros [= <-]. eexists. reflexivity.
  - destruct (audio_filters float_str fuel speed loud_norm) as [[|a l]|]; intros [= <-].
    + eexists. reflexivity.
    + exists (["-filter:a"; join "," (a :: l)] ++ aac_args ++ [outp])%list. reflexivity.
Qed.

Lemma base_cmd_vf float_str inp cfg speed rest :
  nth_error (base_cmd float_str inp cfg speed ++ rest)%list 10 = Some "-vf"
  /\ nth_error (base_cmd float_str inp cfg speed ++ rest)%list 11
     = Some (video_filter float_str speed).
Proof. split; reflexivity. Qed.

Lemma str_app_assoc (a b c : string) : a ++ b ++ c = (a ++ b) ++ c.
Proof. induction a as [|x a IH]; cbn [append]; [reflexivity | rewrite IH; reflexivity]. Qed.

Lemma prefix_app (a b : string) : prefix a (a ++ b) = true.
Proof.
  induction a as [|c a IH]; cbn.
  - destruct b; reflexivity.
  - destruct (ascii_dec c c) as [_|N]; [exact IH | contradiction].
Qed.

Lemma contains_prefix (needle hay : string) : prefix needle hay = true -> contains needle hay = true.
Proof. intros H. destruct hay; cbn [contains]; rewrite H; reflexivity. Qed.

Lemma contains_app_r (needle pre hay : string) :
  contains needle hay = true -> contains needle (pre ++ hay) = true.
Proof.
  intros H. induction pre as [|c pre IH]; cbn [append].
  - exact H.
  - cbn [contains]. rewrite IH. destruct (prefix needle (String c (pre ++ hay))); reflexivity.
Qed.

Lemma video_filter_cases float_str speed :
  video_filter float_str speed
  = if speed_changed speed
    then "setpts=PTS/" ++ float_str speed ++ "," ++ ensure_even_dimensions_filter
    else ensure_even_dimensions_filter.
Proof.
  unfold video_filter, vf_parts. destruct (speed_changed speed); reflexivity.
Qed.

Lemma video_filter_scale float_str speed :
  contains "scale=trunc(iw/2)*2:trunc(ih/2)*2" (video_filter float_str speed) = true.
Proof.
  rewrite video_filter_cases. destruct (speed_changed speed); [ | reflexivity].
  apply (contains_app_r _ "setpts=PTS/"), contains_app_r, (contains_app_r _ ",").
  reflexivity.
Qed.

Lemma video_filter_setpts float_str speed :
  contains "setpts" (video_filter float_str speed) = speed_changed speed.
Proof.
  rewrite video_filter_cases. destruct (speed_changed speed); reflexivity.
Qed.

(** C6. With speed 1.0 the Command Builder returns a command whose video
    filter chain (the value of [-vf]) is the even-dimension stage alone, with
    no [setpts] stage. For every input, the chain of a produced command ends
    with the stage [scale=trunc(iw/2)*2:trunc(ih/2)*2] (followed by the frame
    rate), and it has a [setpts] stage exactly when the speed differs from
    1.0; a command is produced for every speed but [+inf], given fuel 1100. *)
Theorem video_filter_stages (float_str : float -> string) :
  (forall fuel inp outp cfg loud_norm add_silence,
      exists cmd,
        build_ffmpeg_cmd float_str fuel inp outp cfg f1 loud_norm add_silence = Some cmd
        /\ nth_error cmd 10 = Some "-vf"
        /\ nth_error cmd 11 = Some "scale=trunc(iw/2)*2:trunc(ih/2)*2,fps=30"
        /\ contains "setpts" "scale=trunc(iw/2)*2:trunc(ih/2)*2,fps=30" = false)
  /\ (forall fuel inp outp cfg speed loud_norm add_silence cmd,
         build_ffmpeg_cmd float_str fuel inp outp cfg speed loud_norm add_silence = Some cmd ->
         nth_error cmd 10 = Some "-vf"
         /\ nth_error cmd 11 = Some (video_filter float_str speed))
  /\ (forall speed,
         (exists pre, video_filter float_str speed
                      = pre ++ "scale=trunc(iw/2)*2:trunc(ih/2)*2" ++ ",fps=30")
         /\ contains "scale=trunc(iw/2)*2:trunc(ih/2)*2" (video_filter float_str speed) = true
         /\ contains "setpts" (video_filter float_str speed) = speed_changed speed)
  /\ (forall fuel inp outp cfg speed loud_norm add_silence,
         valid speed = true -> speed <> finf -> (1100 <= fuel)%nat ->
         exists cmd,
           build_ffmpeg_cmd float_str fuel inp outp cfg speed loud_norm add_silence = Some cmd).
Proof.
  split; [ | split; [ | split]].
  - intros fuel inp outp cfg loud_norm add_silence.
    destruct add_silence, loud_norm; eexists; (split; [reflexivity | ]);
      repeat split; reflexivity.
  - intros fuel inp outp cfg speed loud_norm add_silence cmd H.
    destruct (build_ffmpeg_cmd_base _ _ _ _ _ _ _ _ _ H) as [rest ->].
    apply base_cmd_vf.
  - intros speed. split; [ | split].
    + rewrite video_filter_cases. destruct (speed_changed speed).
      * exists ("setpts=PTS/" ++ float_str speed ++ ",").
        rewrite <- !str_app_assoc. reflexivity.
      * exists "". reflexivity.
    + apply video_filter_scale.
    + apply video_filter_setpts.
  - intros. apply build_ffmpeg_cmd_total; assumption.
Qed.

Lemma video_filter_stages_witness :
  (exists cmd,
      build_ffmpeg_cmd (fun _ => "1.0") 0 "a.mov" "out/a_ppt.mp4"
        {| profile := "main"; level := "4.0"; preset := "faster"; crf := "20" |}
        f1 false false = Some cmd
      /\ nth_error cmd 10 = Some "-vf"
      /\ nth_error cmd 11 = Some (video_filter (fun _ => "1.0") f1))
  /\ (exists cmd,
         build_ffmpeg_cmd (fun _ => "2.0") 1100 "a.mov" "out/a_ppt.mp4"
           {| profile := "main"; level := "4.0"; preset := "faster"; crf := "20" |}
           f2 true false = Some cmd).
Proof.
  split.
  - eexists. split; [reflexivity | ].
    apply (proj1 (proj2 (video_filter_stages (fun _ => "1.0"))) 0%nat "a.mov" "out/a_ppt.mp4"
             {| profile := "main"; level := "4.0"; preset := "faster"; crf := "20" |}
             f1 false false).
    reflexivity.
  - apply (proj2 (proj2 (proj2 (video_filter_stages (fun _ => "2.0")))));
      [reflexivity | discriminate | apply Nat.le_refl].
Defined.

(** C5. With add-silence set, the Command Builder returns, for every input,
    the video arguments followed by the synthesized silent stereo 48 kHz
    source as second input, [-shortest], the AAC 128k 48 kHz stereo encoding
    arguments, the maps of video from input 0 and audio from input 1, and the
    output path; no value of an audio filter option ([-filter:a], [-af])
    names [atempo] or [loudnorm], and the command does not depend on the
    normalize flag nor on the fuel of the Tempo Decomposer. *)
Theorem silence_branch_cmd :
  forall (float_str : float -> string) fuel inp outp cfg speed loud_norm,
    let cmd :=
      ["ffmpeg"; "-y"; "-i"; inp; "-map_metadata"; "-1"; "-movflags"; "+faststart";
       "-vsync"; "vfr"; "-vf"; video_filter float_str speed; "-r"; "30";
       "-c:v"; "libx264"; "-profile:v"; profile cfg; "-level"; level cfg;
       "-pix_fmt"; "yuv420p"; "-preset"; preset cfg; "-crf"; crf cfg;
       "-f"; "lavfi"; "-t"; "99999"; "-i";
       "anullsrc=channel_layout=stereo:sample_rate=48000";
       "-shortest";
       "-c:a"; "aac"; "-b:a"; "128k"; "-ar"; "48000"; "-ac"; "2";
       "-map"; "0:v:0"; "-map"; "1:a:0";
       outp] in
    build_ffmpeg_cmd float_str fuel inp outp cfg speed loud_norm true = Some cmd
    /\ forallb (fun v => negb (names_audio_filter v))
         (option_values "-filter:a" cmd ++ option_values "-af" cmd) = true
    /\ build_ffmpeg_cmd float_str fuel inp outp cfg speed loud_norm true
       = build_ffmpeg_cmd float_str 0 inp outp cfg speed (negb loud_norm) true.
Proof.
  intros float_str fuel inp outp cfg speed loud_norm cmd.
  split; [reflexivity | ]. split; [ | reflexivity].
  subst cmd. generalize (video_filter float_str speed) as vf.
  destruct cfg as [p l pr c]. cbn [profile level preset crf]. intros vf.
  cbn [option_values String.eqb Ascii.eqb Bool.eqb andb].
  repeat match goal with
         | |- context [String.eqb ?a ?b] => destruct (String.eqb a b)
         end;
    vm_compute; reflexivity.
Qed.

(** At speed [+inf] with an audio stream, no command is ever produced. *)
Lemma build_ffmpeg_cmd_inf float_str fuel inp outp cfg loud_norm :
  build_ffmpeg_cmd float_str fuel inp outp cfg finf loud_norm false = None.
Proof.
  unfold build_ffmpeg_cmd, audio_filters, build_atempo_expr.
  change (speed_changed finf) with true. cbv iota.
  rewrite atempo_factors_inf. reflexivity.
Qed.

End BuilderFacts.

(** ** The Probe Adapter *)

Module ProbeFacts.
Import PyStr Py Eff Probe Worlds.
Local Open Scope string_scope.

Section ProbeFacts.
Context {W : Type}.
Variable os : OS W.
Variable json_loads : string -> result json.

(** C2 (amended). Whenever the probing tool could be run, whatever its exit
    code and output, the Probe Adapter returns a boolean without raising; it
    returns [False] when the exit code is not 0, when the output does not
    parse, and when the parsed value has not the expected shape. *)
Theorem has_audio_stream_fail_closed :
  forall (path : string) (w w' : W) (code : Z) (out err : string),
    os_popen os w (probe_cmd path) = Some (w', Ok (code, out, err)) ->
    exists b : bool,
      has_audio_stream os json_loads path w = (w', [EvRun (probe_cmd path)], Done b)
      /\ (code <> 0 -> b = false)
      /\ (forall e, json_loads out = Raise e -> b = false)
      /\ (forall e, read_streams json_loads out = Raise e -> b = false)
      /\ (code = 0 -> forall b', read_streams json_loads out = Ok b' -> b = b').
Proof.
  intros path w w' code out err H.
  unfold has_audio_stream, bind, run_cmd. rewrite H.
  destruct (Z.eqb_spec code 0) as [E|E]; cbn [negb].
  - destruct (read_streams json_loads out) as [b|e] eqn:R.
    + exists b. cbn. split; [reflexivity | ]. split; [congruence | ].
      split; [ | split; [discriminate | intros _ b' [= ->]; reflexivity]].
      intros e J. unfold read_streams in R. rewrite J in R. discriminate.
    + exists false. cbn. split; [reflexivity | ]. repeat split; try reflexivity.
      intros _ b' [=].
  - exists false. cbn. split; [reflexivity | ]. repeat split; try reflexivity.
    intros C. contradiction.
Qed.
End ProbeFacts.

Lemma has_audio_stream_fail_closed_witness :
  exists b : bool,
    has_audio_stream os_failing_tools (fun _ => Ok JNull) "clip.mov" tt
    = (tt, [EvRun (probe_cmd "clip.mov")], Done b)
    /\ b = false.
Proof.
  destruct (has_audio_stream_fail_closed os_failing_tools (fun _ => Ok JNull)
              "clip.mov" tt tt 1 "" "Invalid data found when processing input" eq_refl)
    as (b & H1 & H2 & _).
  exists b. split; [exact H1 | apply H2; discriminate].
Defined.

(** C2 as stated fails: when the probing tool cannot be started, the
    exception of [run_cmd] leaves [has_audio_stream]. *)
Lemma has_audio_stream_raises :
  has_audio_stream os_no_tools (fun _ => Ok JNull) "clip.mov" tt
  = (tt, [EvRun (probe_cmd "clip.mov")],
     Raised (Exn "FileNotFoundError" "[Errno 2] No such file or directory: 'ffprobe'")).
Proof. reflexivity. Qed.

End ProbeFacts.

(** ** The Batch Runner *)

Module RunnerFacts.
Import PyFloat PyStr Py Tempo Speed Eff Probe Builder Runner Worlds Workers.
Import FloatFacts TempoFacts BuilderFacts.
Local Open Scope string_scope.
Local Open Scope nat_scope.
Local Open Scope list_scope.

Section WithOS.
Context {W : Type}.
Variable os : OS W.
Variable json_loads : string -> result json.
Variable float_str : float -> string.
Variable fuel : nat.
Variable self : worker.

Abbreviation body := (task_body os json_loads float_str fuel self).
Abbreviation process := (process_task os json_loads float_str fuel self).
Abbreviation run_tasks := (run_from os json_loads float_str fuel self).

Ltac unfold_body :=
  cbv beta iota zeta delta
    [task_body process_task try_except_finally on_error on_done has_audio_stream run_cmd
     build_cmd bind ret raise progress_cb log isfile path_exists makedirs fst snd
     negb andb List.app].

Ltac step_body :=
  unfold_body;
  repeat (match goal with
          | |- context [match ?x with _ => _ end] =>
              lazymatch x with
              | context [match _ with _ => _ end] => fail
              | _ => destruct x eqn:?
              end
          end; unfold_body).

(** *** The observers *)



Lemma progress_cb_returns current total msg w w' :
  progress_sink os w current total msg = (w', None) ->
  progress_cb os current total msg w = (w', [EvProgress current total msg], Done tt).
Proof. intros H. unfold progress_cb. rewrite H. reflexivity. Qed.

Lemma log_returns msg w w' :
  log_sink os w msg = (w', None) -> log os msg w = (w', [EvLog msg], Done tt).
Proof. intros H. unfold log. rewrite H. reflexivity. Qed.

(** *** The body of the [try] *)

(** The body starts with its progress call and makes no other. *)
Lemma task_body_progress idx total inp outp w :
  exists t, snd (fst (body idx total inp outp w)) = converting idx total inp :: t
            /\ progress_counts t = [].
Proof.
  step_body; eexists; split; reflexivity.
Qed.

(** The body blocks only on a process that never exits. *)
Lemma task_body_not_hang idx total inp outp w :
  tools_exit os -> snd (body idx total inp outp w) <> Hang.
Proof.
  intros T. step_body; try discriminate;
    match goal with
    | H : os_popen os _ _ = None |- _ => apply T in H; contradiction
    end.
Qed.

(** *** One iteration: [try], [except], [finally] *)

Lemma process_task_done idx total inp outp w w1 t1 w2 :
  body idx total inp outp w = (w1, t1, Done tt) ->
  progress_sink os w1 idx total ("Done " ++ str_of_nat idx ++ "/" ++ str_of_nat total)%string
  = (w2, None) ->
  process idx total (inp, outp) w = (w2, t1 ++ [finished idx total], Done tt).
Proof.
  intros H P. unfold process_task, try_except_finally, on_done. rewrite H.
  rewrite (progress_cb_returns _ _ _ _ _ P). reflexivity.
Qed.

Lemma process_task_caught idx total inp outp w w1 t1 e w2 w3 :
  body idx total inp outp w = (w1, t1, Raised e) ->
  log_sink os w1 (error_line inp e) = (w2, None) ->
  progress_sink os w2 idx total ("Done " ++ str_of_nat idx ++ "/" ++ str_of_nat total)%string
  = (w3, None) ->
  process idx total (inp, outp) w
  = (w3, t1 ++ [EvLog (error_line inp e); finished idx total], Done tt).
Proof.
  intros H L P. unfold process_task, try_except_finally, on_error, on_done. rewrite H.
  fold (error_line inp e).
  rewrite (log_returns _ _ _ L), (progress_cb_returns _ _ _ _ _ P). reflexivity.
Qed.

Lemma progress_counts_app t1 t2 :
  progress_counts (t1 ++ t2) = progress_counts t1 ++ progress_counts t2.
Proof. apply flat_map_app. Qed.

Lemma progress_counts_converting idx total inp t :
  progress_counts (converting idx total inp :: t) = (idx - 1) :: progress_counts t.
Proof. reflexivity. Qed.


(** *** The loop *)

Lemma run_from_cons idx total task rest w :
  run_tasks idx total (task :: rest) w
  = match process idx total task w with
    | (w1, t1, Done _) =>
        let '(w2, t2, o) := run_tasks (S idx) total rest w1 in (w2, (t1 ++ t2)%list, o)
    | (w1, t1, Raised e) => (w1, t1, Raised e)
    | (w1, t1, Hang) => (w1, t1, Hang)
    end.
Proof. reflexivity. Qed.


(** *** The completed counts *)

Lemma expected_counts_S idx k :
  expected_counts idx (S k) = (idx - 1) :: idx :: expected_counts (S idx) k.
Proof. reflexivity. Qed.

Lemma expected_counts_snoc idx k :
  expected_counts idx (S k) = expected_counts idx k ++ [idx + k - 1; idx + k].
Proof.
  unfold expected_counts. rewrite seq_S, flat_map_app. reflexivity.
Qed.



Lemma expected_counts_bound k : forall idx c,
  In c (expected_counts idx k) -> c <= idx + k - 1.
Proof.
  induction k as [|k IH]; intros idx c H.
  - destruct H.
  - rewrite expected_counts_S in H. destruct H as [<-|[<-|H]]; [lia | lia | ].
    specialize (IH (S idx) c H). lia.
Qed.

Lemma expected_counts_last k : forall idx,
  last (expected_counts idx (S k)) 0 = idx + k.
Proof.
  induction k as [|k IH]; intros idx.
  - cbn. lia.
  - rewrite expected_counts_S.
    change (last (idx - 1 :: idx :: expected_counts (S idx) (S k)) 0)
      with (last (expected_counts (S idx) (S k)) 0).
    rewrite IH. lia.
Qed.

(** *** When the two reports of the loop return *)

Section Reports.
Hypothesis reports : reports_return os.

Lemma done_returns w idx total :
  exists w', progress_cb os idx total
               ("Done " ++ str_of_nat idx ++ "/" ++ str_of_nat total)%string w
             = (w', [finished idx total], Done tt).
Proof.
  pose proof (proj1 reports w idx total) as P. unfold progress_cb.
  destruct (progress_sink os w idx total _) as [w' o]. cbn [snd] in P. subst o.
  exists w'. reflexivity.
Qed.

Lemma error_log_returns w inp e :
  exists w', log os ("[ERROR] " ++ basename inp ++ ": " ++ exn_msg e)%string w
             = (w', [EvLog (error_line inp e)], Done tt).
Proof.
  pose proof (proj2 reports w inp e) as L. unfold error_line in L. unfold log.
  destruct (log_sink os w _) as [w' o]. cbn [snd] in L. subst o.
  exists w'. reflexivity.
Qed.

Lemma process_task_logs_fault idx total inp outp w w1 t1 e :
  body idx total inp outp w = (w1, t1, Raised e) ->
  exists w2,
    process idx total (inp, outp) w
    = (w2, t1 ++ [EvLog (error_line inp e); finished idx total], Done tt).
Proof.
  intros B. unfold process_task, try_except_finally, on_error, on_done. rewrite B.
  destruct (error_log_returns w1 inp e) as [w2 ->].
  destruct (done_returns w2 idx total) as [w3 ->].
  exists w3. reflexivity.
Qed.

Lemma process_task_reports idx total inp outp w w1 t1 :
  body idx total inp outp w = (w1, t1, Done tt) ->
  exists w2, process idx total (inp, outp) w = (w2, t1 ++ [finished idx total], Done tt).
Proof.
  intros B. unfold process_task, try_except_finally, on_done. rewrite B.
  destruct (done_returns w1 idx total) as [w2 ->].
  exists w2. reflexivity.
Qed.



(** With tools that exit, every iteration ends, and so does the run. *)
Lemma process_task_ends idx total task w :
  tools_exit os ->
  exists w1 t1,
    process idx total task w = (w1, t1 ++ [finished idx total], Done tt)
    /\ progress_counts t1 = [idx - 1].
Proof.
  intros T. destruct task as [inp outp].
  destruct (task_body_progress idx total inp outp w) as (t & Ht & Hq).
  pose proof (task_body_not_hang idx total inp outp w T) as N.
  destruct (body idx total inp outp w) as [[w1 t1] [[]|e|]] eqn:B;
    cbn [fst snd] in Ht, N; subst t1; [ | | contradiction].
  - destruct (process_task_reports _ _ _ _ _ _ _ B) as [w2 ->].
    exists w2, (converting idx total inp :: t). split; [reflexivity | ].
    rewrite progress_counts_converting, Hq. reflexivity.
  - destruct (process_task_logs_fault _ _ _ _ _ _ _ _ B) as [w2 ->].
    exists w2, ((converting idx total inp :: t) ++ [EvLog (error_line inp e)]).
    split; [rewrite <- app_assoc; reflexivity | ].
    rewrite progress_counts_app, progress_counts_converting, Hq. reflexivity.
Qed.

Lemma run_from_ends ts : forall idx total w,
  tools_exit os ->
  exists w' t,
    run_tasks idx total ts w = (w', t, Done tt)
    /\ progress_counts t = expected_counts idx (List.length ts).
Proof.
  induction ts as [|task rest IH]; intros idx total w Ht.
  - exists w, []. split; reflexivity.
  - rewrite run_from_cons.
    destruct (process_task_ends idx total task w Ht) as (w1 & t1 & -> & Hc).
    destruct (IH (S idx) total w1 Ht) as (w2 & t2 & -> & Q).
    eexists. eexists. split; [reflexivity | ].
    rewrite !progress_counts_app, Hc, Q. reflexivity.
Qed.
End Reports.

(** *** The claims on the runner *)




(** Where the directory of the output can be created, a task whose output
    exists while overwriting is off is skipped: nothing is started, and the
    log gets the SKIP line of the existing output. *)
Lemma existing_output_skipped idx total inp outp w w1 :
  sinks_quiet os ->
  overwrite self = false ->
  os_isfile os w inp = true ->
  os_makedirs os w (dirname outp) = (w1, None) ->
  os_exists os w1 outp = true ->
  process idx total (inp, outp) w
  = (w1,
     [converting idx total inp;
      EvLog ("[SKIP] Exists (enable Overwrite to replace): " ++ outp)%string;
      finished idx total],
     Done tt).
Proof.
  intros [SP SL] Hov F M X.
  unfold_body. rewrite !SP, F, M, X, Hov, !SL. unfold_body. rewrite !SP. reflexivity.
Qed.
End WithOS.



(** At the speed the custom input "inf" resolves to, the construction of the
    command ends in [MemoryError], which the [except] clause logs; the task
    is reported as done. *)
Lemma run_at_infinite_speed :
  make_worker (fun s => s) [("a.mov", "out/a_ppt.mp4")] "Balanced (Main L4.0, 30fps)"
    "Custom…" "inf" false true = Ok infinite_speed
  /\ forall (float_str : float -> string) (fuel : nat),
       run os_audio json_audio float_str fuel infinite_speed tt
       = (tt,
          [EvProgress 0 1 "Converting: a.mov"; EvRun (probe_cmd "a.mov");
           EvLog "[ERROR] a.mov: "; EvProgress 1 1 "Done 1/1"],
          Done tt).
Proof.
  split; [vm_compute; reflexivity | ].
  intros float_str fuel.
  cbv -[build_ffmpeg_cmd]. rewrite build_ffmpeg_cmd_inf. reflexivity.
Qed.


(** C8 fails on the code for an output path without directory part: the
    output exists and overwriting is off, and no tool is started, yet the
    task gets an ERROR line and no SKIP line, because creating the directory
    [''] raises before the existence of the output is looked at. *)
Theorem existing_output_error_not_skip :
  overwrite keep_existing = false
  /\ os_exists os_all_exist tt "a_ppt.mp4" = true
  /\ log_lines (snd (fst (run os_all_exist json_audio (fun _ => "1.0") 0 keep_existing tt)))
     = ["[ERROR] a.mov: [Errno 2] No such file or directory: ''"]
  /\ commands_run
       (snd (fst (run os_all_exist json_audio (fun _ => "1.0") 0 keep_existing tt))) = [].
Proof. repeat split; reflexivity. Qed.



End RunnerFacts.

(** ** More on the Tempo Decomposer *)

Module TempoMore.
Import PyFloat PyStr Py Tempo FloatFacts TempoFacts BuilderFacts.
Local Open Scope Z_scope.

(** A loop whose test fails at once returns its arguments. *)
Lemma halve_loop_skip fuel x fs : fgt x f2 = false -> halve_loop fuel x fs = Some (x, fs).
Proof. intros H. destruct fuel; cbn [halve_loop]; rewrite H; reflexivity. Qed.

Lemma double_loop_skip fuel x fs : flt x f0_5 = false -> double_loop fuel x fs = Some (x, fs).
Proof. intros H. destruct fuel; cbn [double_loop]; rewrite H; reflexivity. Qed.

Lemma atempo_factors_one fuel : atempo_factors fuel f1 = Some [].
Proof.
  unfold atempo_factors. change (fle f1 f0) with false. cbv iota.
  rewrite halve_loop_skip by reflexivity.
  rewrite double_loop_skip by reflexivity.
  reflexivity.
Qed.

(** X1. A speed that is not above zero (a negative number, either zero,
    minus infinity) is treated as 1.0: whatever the fuel, the expression is
    the identity stage, and no factor is computed. *)
Theorem nonpositive_speed_is_identity :
  forall (float_str : float -> string) (fuel : nat) (s : float),
    fle s f0 = true ->
    build_atempo_expr float_str fuel s = Some "atempo=1.0"%string
    /\ atempo_factors fuel s = Some []
    /\ emitted_factors fuel s = Some [f1].
Proof.
  intros float_str fuel s H.
  assert (A : atempo_factors fuel s = Some [])
    by (rewrite atempo_factors_nonpositive by exact H; apply atempo_factors_one).
  unfold build_atempo_expr, emitted_factors. rewrite A. repeat split; reflexivity.
Qed.

Lemma nonpositive_speed_is_identity_witness :
  build_atempo_expr (fun _ => "?"%string) 0 (S754_finite true 6755399441055744 (-51))
  = Some "atempo=1.0"%string
  /\ atempo_factors 0 (S754_finite true 6755399441055744 (-51)) = Some []
  /\ emitted_factors 0 (S754_finite true 6755399441055744 (-51)) = Some [f1].
Proof.
  apply (nonpositive_speed_is_identity (fun _ => "?"%string) 0%nat
           (S754_finite true 6755399441055744 (-51))).
  reflexivity.
Defined.

Lemma repeat_eq_nil {A} (x : A) n : repeat x n = [] -> n = O.
Proof. destruct n; [reflexivity | discriminate]. Qed.

(** What a loop returns, in terms of its iterations. *)
Lemma halve_loop_iter fuel : forall x fs y fs',
  halve_loop fuel x fs = Some (y, fs') ->
  exists k : nat,
    fs' = fs ++ repeat f2 k
    /\ y = Nat.iter k (fun r => fdiv r f2) x
    /\ (fgt x f2 = true -> k <> O).
Proof.
  induction fuel as [|n IH]; intros x fs y fs' H; cbn [halve_loop] in H;
    destruct (fgt x f2) eqn:G; try discriminate.
  - injection H as <- <-. exists O. cbn [repeat Nat.iter]. rewrite app_nil_r.
    repeat split. discriminate.
  - destruct (IH _ _ _ _ H) as (k & E1 & E2 & _). exists (S k).
    rewrite Nat.iter_succ_r, E1, <- app_assoc. repeat split; [exact E2 | discriminate].
  - injection H as <- <-. exists O. cbn [repeat Nat.iter]. rewrite app_nil_r.
    repeat split. discriminate.
Qed.

Lemma double_loop_iter fuel : forall x fs y fs',
  double_loop fuel x fs = Some (y, fs') ->
  exists j : nat,
    fs' = fs ++ repeat f0_5 j
    /\ y = Nat.iter j (fun r => fdiv r f0_5) x
    /\ (flt x f0_5 = true -> j <> O).
Proof.
  induction fuel as [|n IH]; intros x fs y fs' H; cbn [double_loop] in H;
    destruct (flt x f0_5) eqn:G; try discriminate.
  - injection H as <- <-. exists O. cbn [repeat Nat.iter]. rewrite app_nil_r.
    repeat split. discriminate.
  - destruct (IH _ _ _ _ H) as (j & E1 & E2 & _). exists (S j).
    rewrite Nat.iter_succ_r, E1, <- app_assoc. repeat split; [exact E2 | discriminate].
  - injection H as <- <-. exists O. cbn [repeat Nat.iter]. rewrite app_nil_r.
    repeat split. discriminate.
Qed.

Lemma repeat_inj {A} (x : A) n m : repeat x n = repeat x m -> n = m.
Proof.
  intros H. apply (f_equal (@List.length A)) in H. rewrite !repeat_length in H. exact H.
Qed.

(** X2. For a finite speed above zero, the factors are [k] times 2.0,
    then [j] times 0.5, then the residual, which is what [k] divisions by
    2.0 and [j] divisions by 0.5 leave of the speed, rounded to three
    decimals, unless that is within tolerance of 1.0. The two loops never
    both run; the first runs exactly when the speed is above 2.0, at most
    1023 times, the second exactly when it is below 0.5, at most 1073 times;
    and what they leave is between 0.5 and 2.0, as is its rounding. *)
Theorem factors_one_direction :
  forall s : float,
    valid s = true -> is_finite s = true -> fgt s f0 = true ->
    forall fuel, (1100 <= fuel)%nat ->
    exists k j : nat,
      let remaining :=
        Nat.iter j (fun r => fdiv r f0_5) (Nat.iter k (fun r => fdiv r f2) s) in
      atempo_factors fuel s
      = Some (repeat f2 k ++ repeat f0_5 j
                ++ if isclose (round3 remaining) f1 f1e_3 f1e_3
                   then [] else [round3 remaining])
      /\ (k = O \/ j = O)
      /\ (k <= 1023)%nat /\ (j <= 1073)%nat
      /\ (k = O <-> fgt s f2 = false)
      /\ (j = O <-> flt s f0_5 = false)
      /\ fgt remaining f2 = false /\ flt remaining f0_5 = false
      /\ in_stage_range (round3 remaining) = true.
Proof.
  intros s V Fi P fuel Hfuel.
  destruct (positive_finite_shape s V Fi P) as (m & e & -> & B).
  destruct (factors_spec m e fuel B Hfuel)
    as (k & j & m1 & e1 & m3 & e3 & Hk & Hj & H1 & H2 & H3 & H4 & H5 & R1 & R2 & A & _).
  (* the loops in terms of their iterations *)
  destruct (halve_loop_iter fuel _ _ _ _ H1) as (k' & E1 & E2 & E3).
  cbn [List.app] in E1. apply repeat_inj in E1. subst k'.
  destruct (double_loop_iter fuel _ _ _ _ H3) as (j' & F1 & F2 & F3).
  apply app_inv_head, repeat_inj in F1. subst j'.
  (* the second loop does nothing after a halving *)
  assert (Kj : k <> O -> j = O).
  { intros Hk0.
    assert (K4 : -52 <= e - Z.of_nat k).
    { destruct (halve_loop_ok fuel m e [] B) as (k' & G1 & _ & _ & G4).
      - apply bounded_cases in B. destruct B as [[_ ?]|[_ ?]]; lia.
      - cbn [List.app] in G1. rewrite H1 in G1. injection G1 as G1 G2.
        apply repeat_inj in G2. subst k'. apply G4. exact Hk0. }
    destruct (flt (F m (e - Z.of_nat k)) f0_5) eqn:L.
    - apply flt_half_iff in L. lia.
    - rewrite (double_loop_skip fuel _ _ L) in H3. injection H3 as _ _ E.
      rewrite <- (app_nil_r (repeat f2 k)) in E at 1.
      apply app_inv_head in E. symmetry in E. apply repeat_eq_nil in E. exact E. }
  assert (K0 : k = O <-> fgt (F m e) f2 = false).
  { split.
    - intros ->. destruct (fgt (F m e) f2); [ | reflexivity].
      exfalso. apply E3; reflexivity.
    - intros G. destruct k as [|k']; [reflexivity | exfalso].
      rewrite (halve_loop_skip fuel _ _ G) in H1. discriminate. }
  exists k, j. cbv zeta. rewrite <- E2, <- F2, R1.
  split.
  { rewrite A. destruct (isclose (F m3 e3) f1 f1e_3 f1e_3); cbn [negb].
    - rewrite !app_nil_r. reflexivity.
    - rewrite <- app_assoc. reflexivity. }
  split; [destruct k; [left; reflexivity | right; apply Kj; discriminate] | ].
  split; [exact Hk | ]. split; [exact Hj | ].
  split; [exact K0 | ].
  split.
  { split.
    - intros ->. destruct k as [|k'].
      + cbn [Z.of_nat] in F3. rewrite Z.sub_0_r in F3.
        destruct (flt (F m e) f0_5); [ | reflexivity].
        exfalso. apply F3; reflexivity.
      + destruct (fgt (F m e) f2) eqn:G.
        * apply fgt_two_iff in G.
          destruct (flt (F m e) f0_5) eqn:L; [ | reflexivity].
          apply flt_half_iff in L. lia.
        * pose proof (proj2 K0 eq_refl) as K1. discriminate K1.
    - intros L. destruct k as [|k'].
      + cbn [Z.of_nat repeat] in H3. rewrite Z.sub_0_r in H3.
        rewrite (double_loop_skip fuel _ _ L) in H3. injection H3 as _ _ E.
        cbn [List.app] in E. symmetry in E. apply repeat_eq_nil in E. exact E.
      + apply Kj. discriminate. }
  split; [exact H5 | ]. split; [exact H4 | exact R2].
Qed.

Lemma factors_one_direction_witness :
  exists k j : nat,
    let remaining :=
      Nat.iter j (fun r => fdiv r f0_5)
        (Nat.iter k (fun r => fdiv r f2) (F 5629499534213120 (-50))) in
    atempo_factors 1100 (F 5629499534213120 (-50))
    = Some (repeat f2 k ++ repeat f0_5 j
              ++ if isclose (round3 remaining) f1 f1e_3 f1e_3
                 then [] else [round3 remaining])
    /\ (k = O \/ j = O)
    /\ (k <= 1023)%nat /\ (j <= 1073)%nat
    /\ (k = O <-> fgt (F 5629499534213120 (-50)) f2 = false)
    /\ (j = O <-> flt (F 5629499534213120 (-50)) f0_5 = false)
    /\ fgt remaining f2 = false /\ flt remaining f0_5 = false
    /\ in_stage_range (round3 remaining) = true.
Proof.
  apply (factors_one_direction (F 5629499534213120 (-50)) eq_refl eq_refl eq_refl 1100%nat).
  apply Nat.le_refl.
Defined.

End TempoMore.

(** ** More on speed resolution and on the constructor of the worker *)

Module SpeedMore.
Import PyFloat PyStr Py Speed Builder Runner Vocabulary.
Local Open Scope string_scope.

(** X3. Every numeric preset of [SPEED_PRESETS] resolves, without raising
    and whatever the custom field holds, to a finite multiplier above zero. *)
Theorem presets_resolve :
  forall preset custom,
    In preset numeric_presets ->
    resolves_to_positive_finite (parse_speed preset custom) = true.
Proof.
  intros preset custom H.
  unfold numeric_presets in H. cbn [removelast SPEED_PRESETS] in H.
  repeat (destruct H as [<-|H]; [vm_compute; reflexivity | ]).
  destruct H.
Qed.

Lemma presets_resolve_witness :
  resolves_to_positive_finite (parse_speed "0.75x" "abc") = true.
Proof.
  apply (presets_resolve "0.75x" "abc"). right. left. reflexivity.
Defined.

Lemma custom_speed_positive (py_float : string -> result float) (custom : string) :
  exists v, parse_speed_with py_float "Custom…" custom = Ok v /\ fgt v f0 = true.
Proof.
  unfold parse_speed_with.
  replace ("Custom…" =? "Custom…")%string with true by reflexivity.
  destruct (py_float _) as [v|e]; [destruct (fgt v f0) eqn:G | ].
  - exists v. split; [reflexivity | exact G].
  - exists f1. split; reflexivity.
  - exists f1. split; reflexivity.
Qed.

Lemma lookup_profile_missing py_repr l name :
  ~ In name (map fst l) ->
  lookup_profile py_repr l name = Raise (Exn "KeyError" (py_repr name)).
Proof.
  induction l as [|[k v] l IH]; intros H; cbn [lookup_profile].
  - reflexivity.
  - cbn [map fst In] in H.
    destruct (String.eqb_spec k name) as [E|E]; [exfalso; apply H; left; exact E | ].
    apply IH. intros Hin. apply H. right. exact Hin.
Qed.

Lemma lookup_profile_present py_repr l name :
  In name (map fst l) ->
  exists cfg, lookup_profile py_repr l name = Ok cfg /\ In (name, cfg) l.
Proof.
  induction l as [|[k v] l IH]; intros H; cbn [lookup_profile].
  - destruct H.
  - destruct (String.eqb_spec k name) as [E|E].
    + subst k. exists v. split; [reflexivity | left; reflexivity].
    + cbn [map fst In] in H. destruct H as [H|H]; [contradiction | ].
      destruct (IH H) as (cfg & H1 & H2). exists cfg. split; [exact H1 | right; exact H2].
Qed.

Lemma float_of_string_raises s e : float_of_string s = Raise e -> exn_class e = "ValueError".
Proof.
  unfold float_of_string.
  destruct (drop_underscores _ _) as [cs|]; [destruct (parse_float cs) | ];
    intros [= <-]; reflexivity.
Qed.

(** X4. The constructor of the worker: an unknown profile name raises
    [KeyError] (of that name) before the speed is looked at; with a known
    profile and the custom entry it never raises, and the worker it returns
    has a speed above zero, the profile of that name and the given tasks and
    flags; with a known profile and a preset of ASCII characters that
    [float] does not read, it raises [ValueError]. *)
Theorem worker_construction :
  forall py_repr tasks profile_name preset custom normalize ow,
    (~ In profile_name (map fst PROFILES) ->
     make_worker py_repr tasks profile_name preset custom normalize ow
     = Raise (Exn "KeyError" (py_repr profile_name)))
    /\ (In profile_name (map fst PROFILES) ->
        exists w,
          make_worker py_repr tasks profile_name "Custom…" custom normalize ow = Ok w
          /\ fgt (speed w) f0 = true
          /\ In (profile_name, w_profile w) PROFILES
          /\ Runner.tasks w = tasks
          /\ normalize_audio w = normalize /\ overwrite w = ow)
    /\ (In profile_name (map fst PROFILES) ->
        String.eqb preset "Custom…" = false ->
        is_ascii preset = true ->
        forall e, float_of_string (remove_char "x" preset) = Raise e ->
                  exists e',
                    make_worker py_repr tasks profile_name preset custom normalize ow
                    = Raise e'
                    /\ exn_class e' = "ValueError").
Proof.
  intros py_repr tasks profile_name preset custom normalize ow.
  split; [ | split].
  - intros H. unfold make_worker. rewrite (lookup_profile_missing _ _ _ H). reflexivity.
  - intros H. destruct (lookup_profile_present py_repr _ _ H) as (cfg & L & Hin).
    unfold make_worker. rewrite L. cbn [rbind].
    destruct (custom_speed_positive float_of_string custom) as (v & Pv & Gv).
    fold parse_speed in Pv. rewrite Pv. cbn [rbind].
    eexists. split; [reflexivity | ]. cbn. repeat split; assumption.
  - intros H Hp _ e Hf. destruct (lookup_profile_present py_repr _ _ H) as (cfg & L & _).
    exists e. split; [ | exact (float_of_string_raises _ _ Hf)].
    unfold make_worker. rewrite L. cbn [rbind].
    unfold parse_speed, parse_speed_with. rewrite Hp, Hf. reflexivity.
Qed.

Lemma worker_construction_witness :
  make_worker (fun s => "'" ++ s ++ "'") [("a.mov", "out/a_ppt.mp4")] "Fastest" "1.0x" ""
    false true
  = Raise (Exn "KeyError" "'Fastest'")
  /\ (exists w,
         make_worker (fun s => "'" ++ s ++ "'") [("a.mov", "out/a_ppt.mp4")]
           "Balanced (Main L4.0, 30fps)" "Custom…" "abc" false true = Ok w
         /\ fgt (speed w) f0 = true)
  /\ (exists e',
         make_worker (fun s => "'" ++ s ++ "'") [("a.mov", "out/a_ppt.mp4")]
           "Balanced (Main L4.0, 30fps)" "fast" "" false true = Raise e'
         /\ exn_class e' = "ValueError").
Proof.
  split; [ | split].
  - apply (proj1 (worker_construction (fun s => "'" ++ s ++ "'")
                    [("a.mov", "out/a_ppt.mp4")] "Fastest" "1.0x" "" false true)).
    cbn. intros [H|[H|[H|[]]]]; discriminate.
  - destruct (proj1 (proj2 (worker_construction (fun s => "'" ++ s ++ "'")
                              [("a.mov", "out/a_ppt.mp4")]
                              "Balanced (Main L4.0, 30fps)" "1.0x" "abc" false true)))
      as (w & H1 & H2 & _).
    + cbn. right. left. reflexivity.
    + exists w. split; assumption.
  - apply (proj2 (proj2 (worker_construction (fun s => "'" ++ s ++ "'")
                           [("a.mov", "out/a_ppt.mp4")]
                           "Balanced (Main L4.0, 30fps)" "fast" "" false true))
             ltac:(cbn; right; left; reflexivity) eq_refl eq_refl
             (Exn "ValueError" "could not convert string to float") eq_refl).
Defined.

End SpeedMore.

(** ** More on the Probe Adapter *)

Module ProbeMore.
Import PyStr Py Eff Probe Worlds Vocabulary.
Local Open Scope string_scope.
Local Open Scope list_scope.

Section WithOS.
Context {W : Type}.
Variable os : OS W.
Variable json_loads : string -> result json.

Lemma any_audio_false_iff l :
  any_audio l = Ok false <-> forallb (is_stream_dict false) l = true.
Proof.
  induction l as [|s l IH]; cbn [any_audio forallb].
  - split; reflexivity.
  - destruct s as [ |b0|d0|st0|l0|kv]; cbn [py_get is_stream_dict andb];
      try (split; discriminate).
    destruct (is_audio (dict_get kv "codec_type" JNull)); cbn [Bool.eqb andb].
    + split; discriminate.
    + exact IH.
Qed.

Lemma any_audio_true_iff l :
  any_audio l = Ok true <->
  exists pre s post,
    l = pre ++ s :: post
    /\ forallb (is_stream_dict false) pre = true
    /\ is_stream_dict true s = true.
Proof.
  induction l as [|x l IH]; cbn [any_audio].
  - split; [discriminate | ]. intros (pre & s & post & E & _). destruct pre; discriminate.
  - destruct x as [ |b0|d0|st0|l0|kv]; cbn [py_get].
    1-5: split; [discriminate | ];
      intros (pre & s & post & E & Hp & Hs);
      destruct pre as [|p pre]; cbn [List.app] in E; injection E as <- _;
      [cbn in Hs | cbn in Hp]; discriminate.
    destruct (is_audio (dict_get kv "codec_type" JNull)) eqn:A.
    + split; [intros _ | reflexivity].
      exists [], (JDict kv), l. repeat split. cbn. rewrite A. reflexivity.
    + rewrite IH. split.
      * intros (pre & s & post & -> & Hp & Hs).
        exists (JDict kv :: pre), s, post. repeat split; [ | exact Hs].
        cbn. rewrite A. exact Hp.
      * intros (pre & s & post & E & Hp & Hs).
        destruct pre as [|p pre]; cbn [List.app] in E; injection E as <- E.
        -- cbn in Hs. rewrite A in Hs. discriminate.
        -- exists pre, s, post. repeat split; [exact E | | exact Hs].
           cbn [forallb] in Hp. apply andb_true_iff in Hp. apply Hp.
Qed.

(** X5. When the probe could be run, the Probe Adapter answers [True] in
    exactly one case: exit code 0, an output that [json.loads] turns into a
    [dict] whose ["streams"] entry is a list holding a [dict] with
    [codec_type] ["audio"], all entries before it being [dict]s of another
    type (what follows it is not looked at). With no ["streams"] key, or an
    empty list, the answer is [False]. *)
Theorem has_audio_stream_true_iff :
  forall (path : string) (w w' : W) (code : Z) (out err : string),
    os_popen os w (probe_cmd path) = Some (w', Ok (code, out, err)) ->
    (has_audio_stream os json_loads path w = (w', [EvRun (probe_cmd path)], Done true)
     <-> code = 0%Z
         /\ exists kv pre s post,
             json_loads out = Ok (JDict kv)
             /\ dict_get kv "streams" (JList []) = JList (pre ++ s :: post)
             /\ forallb (is_stream_dict false) pre = true
             /\ is_stream_dict true s = true)
    /\ (forall kv, json_loads out = Ok (JDict kv) ->
                   dict_get kv "streams" (JList []) = JList [] ->
                   has_audio_stream os json_loads path w
                   = (w', [EvRun (probe_cmd path)], Done false)).
Proof.
  intros path w w' code out err H.
  assert (E : has_audio_stream os json_loads path w
              = (w', [EvRun (probe_cmd path)],
                 Done (if negb (code =? 0)%Z then false
                       else match read_streams json_loads out with
                            | Ok b => b
                            | Raise _ => false
                            end))).
  { unfold has_audio_stream, bind, run_cmd. rewrite H.
    destruct (negb (code =? 0)%Z); [reflexivity | ].
    destruct (read_streams json_loads out); reflexivity. }
  rewrite E. split.
  - split.
    + intros [= T].
      destruct (Z.eqb_spec code 0) as [C|C]; cbn [negb] in T; [ | discriminate].
      split; [exact C | ].
      unfold read_streams in T.
      destruct (json_loads out) as [data|e]; cbn [rbind] in T; [ | discriminate].
      destruct data as [ |b0|d0|st0|l0|kv]; cbn [py_get rbind] in T; try discriminate.
      destruct (dict_get kv "streams" (JList [])) as [ |b0|d0|str|l|kv'] eqn:D;
        cbn [py_iter rbind] in T; try discriminate.
      * exfalso. destruct (list_ascii_of_string str); cbn in T; discriminate.
      * destruct (any_audio l) as [b|e] eqn:A; [subst b | discriminate].
        apply any_audio_true_iff in A. destruct A as (pre & s & post & -> & Hp & Hs).
        exists kv, pre, s, post. repeat split; assumption.
      * exfalso. destruct kv' as [|[k v] kv']; cbn in T; discriminate.
    + intros (-> & kv & pre & s & post & J & D & Hp & Hs).
      cbn [Z.eqb negb]. unfold read_streams. rewrite J. cbn [rbind py_get]. rewrite D.
      cbn [py_iter rbind].
      replace (any_audio (pre ++ s :: post)) with (@Ok bool true); [reflexivity | ].
      symmetry. apply any_audio_true_iff. exists pre, s, post. repeat split; assumption.
  - intros kv J D. f_equal. f_equal.
    destruct (negb (code =? 0)%Z); [reflexivity | ].
    unfold read_streams. rewrite J. cbn [rbind py_get]. rewrite D. reflexivity.
Qed.
End WithOS.

Lemma has_audio_stream_true_iff_witness :
  has_audio_stream os_audio json_audio "a.mov" tt
  = (tt, [EvRun (probe_cmd "a.mov")], Done true).
Proof.
  apply (proj1 (has_audio_stream_true_iff os_audio json_audio "a.mov" tt tt 0
                  audio_probe_output "" eq_refl)).
  split; [reflexivity | ].
  exists [("streams", JList [JDict [("codec_type", JStr "audio")]])],
    [], (JDict [("codec_type", JStr "audio")]), [].
  repeat split.
Defined.

End ProbeMore.

(** ** More on the Command Builder *)

Module BuilderMore.
Import PyFloat PyStr Py Tempo Builder Workers FloatFacts TempoFacts BuilderFacts.
Local Open Scope string_scope.
Local Open Scope list_scope.

(** X6. With an audio stream present (add-silence off), a produced command
    is the video arguments, then [-filter:a] with its chain exactly when
    normalisation is asked for or the speed differs from 1.0, then the AAC
    arguments and the output path. The chain is the loudness stage, the tempo
    expression of the Tempo Decomposer, or both in this order, joined by a
    comma. *)
Theorem audio_branch_cmd :
  forall (float_str : float -> string) fuel inp outp cfg speed loud_norm cmd,
    build_ffmpeg_cmd float_str fuel inp outp cfg speed loud_norm false = Some cmd ->
    exists tempo : list string,
      (if speed_changed speed
       then exists expr, build_atempo_expr float_str fuel speed = Some expr /\ tempo = [expr]
       else tempo = [])
      /\ cmd
         = base_cmd float_str inp cfg speed
             ++ (if loud_norm || speed_changed speed
                 then ["-filter:a";
                       join "," ((if loud_norm then ["loudnorm=I=-16:TP=-1.5:LRA=11"] else [])
                                   ++ tempo)]
                 else [])
             ++ ["-c:a"; "aac"; "-b:a"; "128k"; "-ar"; "48000"; "-ac"; "2"; outp].
Proof.
  intros float_str fuel inp outp cfg speed loud_norm cmd.
  unfold build_ffmpeg_cmd, audio_filters.
  destruct (speed_changed speed).
  - destruct (build_atempo_expr float_str fuel speed) as [expr|]; [ | discriminate].
    intros H. exists [expr]. split; [exists expr; split; reflexivity | ].
    destruct loud_norm; cbn [orb List.app] in *; injection H as <-; reflexivity.
  - intros H. exists []. split; [reflexivity | ].
    destruct loud_norm; cbn [orb List.app] in *; injection H as <-; reflexivity.
Qed.

Lemma audio_branch_cmd_witness :
  exists tempo : list string,
    (if speed_changed f2
     then exists expr, build_atempo_expr (fun _ => "2.0") 1100 f2 = Some expr /\ tempo = [expr]
     else tempo = [])
    /\ base_cmd (fun _ => "2.0") "a.mov" main_cfg f2
         ++ ["-filter:a"; "loudnorm=I=-16:TP=-1.5:LRA=11,atempo=2.0"]
         ++ ["-c:a"; "aac"; "-b:a"; "128k"; "-ar"; "48000"; "-ac"; "2"; "out/a_ppt.mp4"]
       = base_cmd (fun _ => "2.0") "a.mov" main_cfg f2
           ++ (if true || speed_changed f2
               then ["-filter:a";
                     join "," ((if true then ["loudnorm=I=-16:TP=-1.5:LRA=11"] else [])
                                 ++ tempo)]
               else [])
           ++ ["-c:a"; "aac"; "-b:a"; "128k"; "-ar"; "48000"; "-ac"; "2"; "out/a_ppt.mp4"].
Proof.
  apply (audio_branch_cmd (fun _ => "2.0") 1100 "a.mov" "out/a_ppt.mp4" main_cfg f2 true).
  vm_compute. reflexivity.
Defined.

(** X7. Every produced command starts with [ffmpeg -y -i] and the input
    path, carries the four fields of the profile after [-profile:v],
    [-level], [-preset] and [-crf], and ends with the output path. *)
Theorem cmd_frame :
  forall (float_str : float -> string) fuel inp outp cfg speed loud_norm add_silence cmd,
    build_ffmpeg_cmd float_str fuel inp outp cfg speed loud_norm add_silence = Some cmd ->
    firstn 4 cmd = ["ffmpeg"; "-y"; "-i"; inp]
    /\ firstn 4 (skipn 16 cmd) = ["-profile:v"; profile cfg; "-level"; level cfg]
    /\ firstn 4 (skipn 22 cmd) = ["-preset"; preset cfg; "-crf"; crf cfg]
    /\ last cmd "" = outp.
Proof.
  intros float_str fuel inp outp cfg speed loud_norm add_silence cmd H.
  destruct (build_ffmpeg_cmd_base _ _ _ _ _ _ _ _ _ H) as [rest E].
  split; [rewrite E; reflexivity | ]. split; [rewrite E; reflexivity | ].
  split; [rewrite E; reflexivity | ].
  clear E. unfold build_ffmpeg_cmd in H.
  assert (L : exists pre, cmd = pre ++ [outp]).
  { destruct add_silence.
    - exists (base_cmd float_str inp cfg speed ++ silence_args).
      rewrite <- app_assoc. congruence.
    - destruct (audio_filters float_str fuel speed loud_norm) as [[|a l]|];
        [ | | discriminate].
      + exists (base_cmd float_str inp cfg speed ++ aac_args).
        rewrite <- app_assoc. congruence.
      + exists ((base_cmd float_str inp cfg speed ++ ["-filter:a"; join "," (a :: l)])
                  ++ aac_args).
        rewrite <- app_assoc. congruence. }
  destruct L as [pre ->]. apply last_last.
Qed.

Lemma cmd_frame_witness :
  exists cmd,
    build_ffmpeg_cmd (fun _ => "1.0") 0 "a.mov" "out/a_ppt.mp4" main_cfg f1 false true
    = Some cmd
    /\ firstn 4 cmd = ["ffmpeg"; "-y"; "-i"; "a.mov"]
    /\ last cmd "" = "out/a_ppt.mp4".
Proof.
  eexists. split; [reflexivity | ].
  destruct (cmd_frame (fun _ => "1.0") 0 "a.mov" "out/a_ppt.mp4" main_cfg f1 false true _
              eq_refl) as (H1 & _ & _ & H4).
  split; [exact H1 | exact H4].
Defined.

End BuilderMore.

(** ** Output path suggestion *)

Module PathsFacts.
Import PyStr Paths BuilderFacts.
Local Open Scope nat_scope.
Local Open Scope string_scope.

Lemma has_slash_app a b : has_slash (a ++ b) = has_slash a || has_slash b.
Proof.
  induction a as [|c a IH]; cbn [append has_slash]; [reflexivity | ].
  rewrite IH. apply orb_assoc.
Qed.

Lemma basename_no_slash p : has_slash (basename p) = false.
Proof.
  induction p as [|c r IH]; cbn [basename]; [reflexivity | ].
  destruct (has_slash r) eqn:S; [exact IH | ].
  destruct (Ascii.eqb c "/") eqn:C; [exact S | ].
  cbn [has_slash]. rewrite C, S. reflexivity.
Qed.

Lemma basename_id s : has_slash s = false -> basename s = s.
Proof.
  destruct s as [|c r]; cbn [basename has_slash]; [reflexivity | ].
  intros H. apply orb_false_iff in H. destruct H as [C S]. rewrite S, C. reflexivity.
Qed.

Lemma basename_after_slash d n : has_slash n = false -> basename (d ++ "/" ++ n) = n.
Proof.
  intros H. induction d as [|c d IH]; cbn [append basename].
  - rewrite H. reflexivity.
  - replace (has_slash (d ++ String "/" n)) with true; [exact IH | ].
    symmetry. rewrite has_slash_app. cbn [has_slash]. rewrite Ascii.eqb_refl.
    cbn [orb]. apply orb_true_r.
Qed.

Lemma ends_with_slash_snoc a : ends_with_slash a = true -> exists a', a = a' ++ "/".
Proof.
  induction a as [|c r IH]; cbn [ends_with_slash]; [discriminate | ].
  destruct r as [|c' r'].
  - intros H. apply Ascii.eqb_eq in H. subst c. exists "". reflexivity.
  - intros H. destruct (IH H) as [a' E]. exists (String c a'). cbn [append]. rewrite <- E.
    reflexivity.
Qed.

Lemma has_slash_substring s : forall n m, has_slash s = false -> has_slash (substring n m s) = false.
Proof.
  induction s as [|c r IH]; intros n m H.
  - destruct n, m; reflexivity.
  - cbn [has_slash] in H. apply orb_false_iff in H. destruct H as [C S].
    destruct n as [|n]; [destruct m as [|m] | ]; cbn [substring has_slash].
    + reflexivity.
    + rewrite C, (IH 0 m S). reflexivity.
    + apply IH. exact S.
Qed.

Lemma stem_no_slash b : has_slash b = false -> has_slash (fst (splitext b)) = false.
Proof.
  intros H. unfold splitext.
  destruct (rfind "." b) as [d|]; [ | exact H].
  destruct (_ && _); [apply has_slash_substring | ]; exact H.
Qed.

Lemma dirname_no_slash s : has_slash s = false -> dirname s = "".
Proof.
  intros H. unfold dirname. rewrite (basename_id s H), Nat.sub_diag.
  destruct s; reflexivity.
Qed.

Lemma prefix_slash_false n : has_slash n = false -> prefix "/" n = false.
Proof.
  destruct n as [|c r]; [reflexivity | ]. cbn [has_slash prefix]. intros H.
  apply orb_false_iff in H. destruct H as [C _].
  destruct (ascii_dec "/" c) as [E|E]; [ | reflexivity].
  subst c. discriminate.
Qed.

Lemma basename_join d n :
  has_slash n = false -> basename (join_path d n) = n.
Proof.
  intros H. unfold join_path. rewrite (prefix_slash_false n H).
  destruct (String.eqb_spec d "") as [->|Hd]; cbn [orb].
  - apply basename_id. exact H.
  - destruct (ends_with_slash d) eqn:E.
    + destruct (ends_with_slash_snoc d E) as [d' ->].
      rewrite <- BuilderFacts.str_app_assoc. apply basename_after_slash. exact H.
    + apply basename_after_slash. exact H.
Qed.

Lemma suggestion_no_dir in_path : dirname (suggest_output_path in_path "") = "".
Proof.
  assert (N : has_slash (fst (splitext (basename in_path)) ++ "_ppt.mp4") = false).
  { rewrite has_slash_app, (stem_no_slash _ (basename_no_slash in_path)). reflexivity. }
  unfold suggest_output_path, join_path.
  rewrite (prefix_slash_false _ N). apply dirname_no_slash. exact N.
Qed.

(** X8. The suggested output always has the name of the input without its
    directory and extension, followed by [_ppt.mp4], whatever the output
    directory; the directory of the input plays no part; and with an empty
    output directory the suggestion has no directory part at all. *)
Theorem suggestion_name :
  forall in_path out_dir,
    let name := fst (splitext (basename in_path)) ++ "_ppt.mp4" in
    basename (suggest_output_path in_path out_dir) = name
    /\ has_slash name = false
    /\ suggest_output_path in_path out_dir = suggest_output_path (basename in_path) out_dir
    /\ suggest_output_path in_path "" = name
    /\ dirname (suggest_output_path in_path "") = "".
Proof.
  intros in_path out_dir name.
  assert (N : has_slash name = false).
  { unfold name. rewrite has_slash_app, (stem_no_slash _ (basename_no_slash in_path)).
    reflexivity. }
  assert (E : suggest_output_path in_path "" = name).
  { unfold suggest_output_path, join_path. fold name.
    rewrite (prefix_slash_false name N). reflexivity. }
  split; [apply basename_join; exact N | ]. split; [exact N | ].
  split; [ | split; [exact E | rewrite E; apply dirname_no_slash; exact N]].
  unfold suggest_output_path. rewrite (basename_id _ (basename_no_slash in_path)).
  reflexivity.
Qed.

Lemma rfind_from_absent_dot s : forall i, has_dot s = false -> rfind_from "." s i = None.
Proof.
  induction s as [|c r IH]; intros i H; cbn [rfind_from]; [reflexivity | ].
  cbn [has_dot] in H. apply orb_false_iff in H. destruct H as [C D].
  rewrite (IH (S i) D), C. reflexivity.
Qed.

Lemma rfind_from_absent_slash s : forall i, has_slash s = false -> rfind_from "/" s i = None.
Proof.
  induction s as [|c r IH]; intros i H; cbn [rfind_from]; [reflexivity | ].
  cbn [has_slash] in H. apply orb_false_iff in H. destruct H as [C D].
  rewrite (IH (S i) D), C. reflexivity.
Qed.

Lemma rfind_from_last_dot a b : forall i,
  has_dot b = false -> rfind_from "." (a ++ "." ++ b) i = Some (i + length a)%nat.
Proof.
  induction a as [|c a IH]; intros i H; cbn [append rfind_from length].
  - rewrite (rfind_from_absent_dot b (S i) H). cbn. rewrite Nat.add_0_r. reflexivity.
  - change (String "." b) with ("." ++ b). rewrite (IH (S i) H).
    f_equal. apply Nat.add_succ_comm.
Qed.

Lemma substring_prefix a b : substring 0 (length a) (a ++ b) = a.
Proof.
  induction a as [|c a IH]; cbn [length append substring].
  - destruct b; reflexivity.
  - rewrite IH. reflexivity.
Qed.

Lemma all_dots_no_dot s : s <> "" -> has_dot s = false -> all_dots s = false.
Proof.
  destruct s as [|c r]; [contradiction | ]. intros _ H.
  cbn [has_dot] in H. apply orb_false_iff in H. destruct H as [C _].
  cbn [all_dots]. rewrite C. reflexivity.
Qed.

Lemma splitext_simple name ext :
  name <> "" -> has_dot name = false -> has_slash name = false ->
  has_dot ext = false -> has_slash ext = false ->
  fst (splitext (name ++ "." ++ ext)) = name.
Proof.
  intros Hn Dn Sn De Se. unfold splitext, rfind.
  rewrite (rfind_from_last_dot name ext 0 De). cbn [Nat.add].
  rewrite rfind_from_absent_slash
    by (rewrite has_slash_app, Sn; cbn [append has_slash orb]; exact Se).
  rewrite Nat.sub_0_r, substring_prefix, (all_dots_no_dot name Hn Dn).
  reflexivity.
Qed.

(** X9. Two inputs with the same name up to directory and extension get the
    same suggested output: nothing tells [clip.mov] of one folder from
    [clip.avi] of another. *)
Theorem suggestions_collide :
  forall dir1 dir2 name ext1 ext2 out_dir,
    name <> "" -> has_dot name = false -> has_slash name = false ->
    has_dot ext1 = false -> has_slash ext1 = false ->
    has_dot ext2 = false -> has_slash ext2 = false ->
    suggest_output_path (dir1 ++ "/" ++ name ++ "." ++ ext1) out_dir
    = join_path out_dir (name ++ "_ppt.mp4")
    /\ suggest_output_path (dir1 ++ "/" ++ name ++ "." ++ ext1) out_dir
       = suggest_output_path (dir2 ++ "/" ++ name ++ "." ++ ext2) out_dir.
Proof.
  intros dir1 dir2 name ext1 ext2 out_dir Hn Dn Sn D1 S1 D2 S2.
  assert (E : forall dir ext, has_dot ext = false -> has_slash ext = false ->
                suggest_output_path (dir ++ "/" ++ name ++ "." ++ ext) out_dir
                = join_path out_dir (name ++ "_ppt.mp4")).
  { intros dir ext De Se. unfold suggest_output_path.
    rewrite basename_after_slash
      by (rewrite has_slash_app, Sn; cbn [append has_slash orb]; exact Se).
    rewrite (splitext_simple name ext Hn Dn Sn De Se). reflexivity. }
  split; [apply E; assumption | ].
  rewrite (E dir1 ext1 D1 S1), (E dir2 ext2 D2 S2). reflexivity.
Qed.

Lemma suggestions_collide_witness :
  suggest_output_path ("/a" ++ "/" ++ "clip" ++ "." ++ "mov") "/out"
  = join_path "/out" ("clip" ++ "_ppt.mp4")
  /\ suggest_output_path ("/a" ++ "/" ++ "clip" ++ "." ++ "mov") "/out"
     = suggest_output_path ("/b/c" ++ "/" ++ "clip" ++ "." ++ "avi") "/out".
Proof.
  apply (suggestions_collide "/a" "/b/c" "clip" "mov" "avi" "/out");
    solve [reflexivity | discriminate].
Defined.

End PathsFacts.

(** ** More on the Batch Runner *)

Module RunnerMore.
Import PyFloat PyStr Py Tempo Speed Eff Probe Builder Runner Worlds Workers Vocabulary Paths.
Import BuilderFacts RunnerFacts PathsFacts.
Local Open Scope string_scope.
Local Open Scope nat_scope.
Local Open Scope list_scope.

Section WithOS.
Context {W : Type}.
Variable os : OS W.
Variable json_loads : string -> result json.
Variable float_str : float -> string.
Variable fuel : nat.
Variable self : worker.

Abbreviation body := (task_body os json_loads float_str fuel self).
Abbreviation process := (process_task os json_loads float_str fuel self).
Abbreviation run_tasks := (run_from os json_loads float_str fuel self).

Ltac unfold_task :=
  cbv beta iota zeta delta
    [task_body process_task try_except_finally on_error on_done has_audio_stream run_cmd
     build_cmd bind ret raise progress_cb log isfile path_exists makedirs fst snd
     negb andb List.app].

Ltac step_task :=
  unfold_task;
  repeat (match goal with
          | |- context [match ?x with _ => _ end] =>
              lazymatch x with
              | context [match _ with _ => _ end] => fail
              | _ => destruct x eqn:?
              end
          end; unfold_task).

Ltac unfold_flow :=
  cbv beta iota zeta delta
    [task_body process_task try_except_finally on_error on_done
     build_cmd bind ret raise progress_cb log isfile path_exists makedirs fst snd
     List.app].

Ltac norm_flow := cbn [negb]; cbv beta iota zeta.

Lemma has_audio_stream_not_started path w w' e :
  os_popen os w (probe_cmd path) = Some (w', Raise e) ->
  has_audio_stream os json_loads path w = (w', [EvRun (probe_cmd path)], Raised e).
Proof.
  intros H. unfold has_audio_stream, bind, run_cmd. rewrite H. reflexivity.
Qed.

Lemma has_audio_stream_failed path w w' code out err :
  os_popen os w (probe_cmd path) = Some (w', Ok (code, out, err)) ->
  code <> 0%Z \/ (exists e, json_loads out = Raise e) ->
  has_audio_stream os json_loads path w = (w', [EvRun (probe_cmd path)], Done false).
Proof.
  intros H D. unfold has_audio_stream, bind, run_cmd. rewrite H.
  destruct (Z.eqb_spec code 0) as [E|E]; cbn [negb]; [ | reflexivity].
  destruct D as [D|[e D]]; [contradiction | ].
  unfold read_streams. rewrite D. reflexivity.
Qed.

(** X12. When the probe exits with a non-zero code, or its output does not
    parse, the failure is not reported: the task goes on as for a file
    without audio, and the command that is logged and run is the one with
    the synthesized silent track, whatever the speed and the loudness
    option are. (The observers return and leave files and processes alone;
    the encode tool exits or cannot be started.) *)
Theorem failed_probe_injects_silence :
  forall idx total inp outp w w1 w2 code out err,
    sinks_quiet os ->
    os_isfile os w inp = true ->
    os_makedirs os w (dirname outp) = (w1, None) ->
    (os_exists os w1 outp && negb (overwrite self))%bool = false ->
    os_popen os w1 (probe_cmd inp) = Some (w2, Ok (code, out, err)) ->
    code <> 0%Z \/ (exists e, json_loads out = Raise e) ->
    let silent_cmd :=
      base_cmd float_str inp (w_profile self) (speed self) ++ silence_args ++ [outp] in
    os_popen os w2 silent_cmd <> None ->
    exists w3 line,
      process idx total (inp, outp) w
      = (w3,
         [converting idx total inp; EvRun (probe_cmd inp);
          EvLog (cmd_line silent_cmd); EvRun silent_cmd; EvLog line; finished idx total],
         Done tt).
Proof.
  intros idx total inp outp w w1 w2 code out err [SP SL] F M X P D silent_cmd T.
  unfold_flow. rewrite !SP, F. norm_flow. rewrite M. norm_flow.
  rewrite X, (has_audio_stream_failed inp w1 w2 code out err P D). norm_flow.
  unfold build_ffmpeg_cmd. norm_flow. fold silent_cmd. rewrite !SL. norm_flow.
  unfold run_cmd.
  destruct (os_popen os w2 silent_cmd) as [[w3 [[[c o] er]|e]]|]; norm_flow;
    [ | | contradiction].
  - destruct (c =? 0)%Z; norm_flow; rewrite !SL, !SP; eexists; eexists; reflexivity.
  - rewrite !SL, !SP. eexists. eexists. reflexivity.
Qed.

Lemma started_converting c total s t :
  started (EvProgress c total ("Converting: " ++ s)%string :: t)
  = ("Converting: " ++ s)%string :: started t.
Proof.
  unfold started. cbn [flat_map].
  rewrite (prefix_app "Converting: " s). reflexivity.
Qed.

Lemma started_app t1 t2 : started (t1 ++ t2) = started t1 ++ started t2.
Proof. apply flat_map_app. Qed.

Lemma process_task_started idx total inp outp w :
  started (snd (fst (process idx total (inp, outp) w)))
  = [("Converting: " ++ basename inp)%string].
Proof.
  step_task; rewrite started_converting; reflexivity.
Qed.

(** X13. The tasks are started in the order of the list, each once and none
    left out: the opening progress messages name the inputs of a prefix of
    the task list, and of the whole list when the run ends. *)
Theorem tasks_start_in_order :
  forall w,
    let '(_, t, o) := run os json_loads float_str fuel self w in
    exists k,
      k <= List.length (tasks self)
      /\ started t
         = map (fun task => ("Converting: " ++ basename (fst task))%string)
             (firstn k (tasks self))
      /\ (o = Done tt -> k = List.length (tasks self)).
Proof.
  intros w. unfold run.
  generalize (List.length (tasks self)) at 1 as total. generalize 1 as idx. revert w.
  induction (tasks self) as [|[inp outp] rest IH]; intros w idx total.
  - exists 0. repeat split; reflexivity.
  - rewrite run_from_cons.
    pose proof (process_task_started idx total inp outp w) as St.
    destruct (process idx total (inp, outp) w) as [[w1 t1] [[]|e|]]; cbn [fst snd] in St.
    + specialize (IH w1 (S idx) total).
      destruct (run_tasks (S idx) total rest w1) as [[w2 t2] o].
      destruct IH as (k & Hk & Hs & Hd).
      exists (S k). split; [cbn [List.length]; lia | ]. split.
      * rewrite started_app, St, Hs. reflexivity.
      * intros Ho. cbn [List.length]. rewrite (Hd Ho). reflexivity.
    + exists 1. split; [cbn [List.length]; lia | ]. split; [exact St | discriminate].
    + exists 1. split; [cbn [List.length]; lia | ]. split; [exact St | discriminate].
Qed.

(** X14. With an empty output folder nothing is converted: the suggested
    output has no directory part, creating the directory of that name
    raises, and a task whose input exists ends with an ERROR line, no tool
    being started. (The observers return and leave files and processes
    alone.) *)
Theorem empty_out_dir_fails :
  forall idx total inp w w1 e,
    sinks_quiet os ->
    os_isfile os w inp = true ->
    os_makedirs os w "" = (w1, Some e) ->
    process idx total (inp, suggest_output_path inp "") w
    = (w1, [converting idx total inp; EvLog (error_line inp e); finished idx total],
       Done tt).
Proof.
  intros idx total inp w w1 e [SP SL] F M.
  unfold_flow. rewrite !SP, F. norm_flow.
  rewrite (suggestion_no_dir inp), M. norm_flow. rewrite !SL, !SP. reflexivity.
Qed.
End WithOS.

Lemma empty_out_dir_fails_witness :
  process_task os_all_exist json_audio (fun _ => "1.0") 0 keep_existing 1 1
    ("/videos/a.mov", suggest_output_path "/videos/a.mov" "") tt
  = (tt,
     [converting 1 1 "/videos/a.mov";
      EvLog (error_line "/videos/a.mov"
               (Exn "FileNotFoundError" "[Errno 2] No such file or directory: ''"));
      finished 1 1],
     Done tt).
Proof.
  apply (empty_out_dir_fails os_all_exist json_audio (fun _ => "1.0") 0 keep_existing
           1 1 "/videos/a.mov" tt tt
           (Exn "FileNotFoundError" "[Errno 2] No such file or directory: ''")).
  - split; intros; reflexivity.
  - reflexivity.
  - reflexivity.
Defined.

Lemma failed_probe_injects_silence_witness :
  exists w3 line,
    process_task os_failing_tools json_audio (fun _ => "2.0") 1100 two_tasks 1 2
      ("a.mov", "out/a_ppt.mp4") tt
    = (w3,
       [converting 1 2 "a.mov"; EvRun (probe_cmd "a.mov");
        EvLog (cmd_line (base_cmd (fun _ => "2.0") "a.mov" main_cfg f2
                           ++ silence_args ++ ["out/a_ppt.mp4"]));
        EvRun (base_cmd (fun _ => "2.0") "a.mov" main_cfg f2
                 ++ silence_args ++ ["out/a_ppt.mp4"]);
        EvLog line; finished 1 2],
       Done tt).
Proof.
  apply (failed_probe_injects_silence os_failing_tools json_audio (fun _ => "2.0") 1100
           two_tasks 1 2 "a.mov" "out/a_ppt.mp4" tt tt tt 1%Z ""
           "Invalid data found when processing input").
  - split; intros; reflexivity.
  - reflexivity.
  - reflexivity.
  - reflexivity.
  - reflexivity.
  - left. discriminate.
  - discriminate.
Defined.

End RunnerMore.

(** ** The window *)

Module GuiFacts.
Import PyFloat PyStr Py Tempo Speed Eff Probe Builder Runner Worlds Workers Vocabulary Paths.
Import BuilderFacts RunnerFacts PathsFacts SpeedMore.
Local Open Scope string_scope.
Local Open Scope nat_scope.
Local Open Scope list_scope.

Lemma py_in_iff p l : Gui.py_in p l = true <-> In p l.
Proof.
  unfold Gui.py_in. rewrite existsb_exists. split.
  - intros (x & Hx & E). apply String.eqb_eq in E. subst x. exact Hx.
  - intros H. exists p. split; [exact H | apply String.eqb_refl].
Qed.

Lemma add_files_spec paths : forall st,
  NoDup (Gui.files st) -> Gui.file_list st = Gui.files st ->
  let st' := Gui.add_files st paths in
  NoDup (Gui.files st')
  /\ Gui.file_list st' = Gui.files st'
  /\ (exists added, Gui.files st' = Gui.files st ++ added)
  /\ (forall p, In p (Gui.files st') <-> In p (Gui.files st) \/ In p paths).
Proof.
  induction paths as [|p paths IH]; intros st N E; cbv zeta.
  - cbn [Gui.add_files fold_left]. split; [exact N | ]. split; [exact E | ].
    split; [exists []; rewrite app_nil_r; reflexivity | ].
    intros q. cbn [In]. tauto.
  - unfold Gui.add_files. cbn [fold_left]. fold (Gui.add_files).
    destruct (Gui.py_in p (Gui.files st)) eqn:M; cbn [negb].
    + apply py_in_iff in M.
      change (fold_left _ paths st) with (Gui.add_files st paths).
      destruct (IH st N E) as (I1 & I2 & I3 & I4).
      split; [exact I1 | ]. split; [exact I2 | ]. split; [exact I3 | ].
      intros q. rewrite I4. cbn [In]. split; [tauto | ].
      intros [H|[<-|H]]; tauto.
    + assert (M' : ~ In p (Gui.files st)).
      { intros H. apply py_in_iff in H. congruence. }
      set (st1 := {| Gui.files := Gui.files st ++ [p];
                     Gui.file_list := Gui.file_list st ++ [p] |}).
      change (fold_left _ paths st1) with (Gui.add_files st1 paths).
      assert (N1 : NoDup (Gui.files st1)).
      { cbn. apply NoDup_app; [exact N | repeat constructor; intros [] | ].
        intros x Hx [<-|[]]. contradiction. }
      assert (E1 : Gui.file_list st1 = Gui.files st1) by (cbn; rewrite E; reflexivity).
      destruct (IH st1 N1 E1) as (I1 & I2 & (added & I3) & I4).
      split; [exact I1 | ]. split; [exact I2 | ]. split.
      * exists (p :: added). rewrite I3. cbn. rewrite <- app_assoc. reflexivity.
      * intros q. rewrite I4. cbn [Gui.files st1 In]. rewrite in_app_iff. cbn [In]. tauto.
Qed.

(** X15. Whatever the user does with the Add Files and Clear buttons, the
    list of inputs holds no path twice, and the list box shows exactly that
    list. *)
Theorem file_list_has_no_duplicate :
  forall actions,
    let st := fold_left Gui.perform actions Gui.empty_panel in
    NoDup (Gui.files st) /\ Gui.file_list st = Gui.files st.
Proof.
  intros actions. cbv zeta.
  assert (G : forall st, NoDup (Gui.files st) -> Gui.file_list st = Gui.files st ->
                         NoDup (Gui.files (fold_left Gui.perform actions st))
                         /\ Gui.file_list (fold_left Gui.perform actions st)
                            = Gui.files (fold_left Gui.perform actions st)).
  { induction actions as [|a actions IH]; intros st N E; cbn [fold_left].
    - split; assumption.
    - destruct a as [paths|]; cbn [Gui.perform].
      + destruct (add_files_spec paths st N E) as (I1 & I2 & _). apply IH; assumption.
      + apply IH; [constructor | reflexivity]. }
  apply G; [constructor | reflexivity].
Qed.

(** X16. Add Files keeps what the list holds, in place, and appends the
    selected paths that are new: a path is in the list afterwards exactly
    when it was there or was selected. *)
Theorem add_files_appends :
  forall st paths,
    NoDup (Gui.files st) -> Gui.file_list st = Gui.files st ->
    (exists added, Gui.files (Gui.add_files st paths) = Gui.files st ++ added)
    /\ (forall p, In p (Gui.files (Gui.add_files st paths))
                  <-> In p (Gui.files st) \/ In p paths).
Proof.
  intros st paths N E. destruct (add_files_spec paths st N E) as (_ & _ & I3 & I4).
  split; assumption.
Qed.

Lemma convert_tasks_inputs files out_dir :
  map fst (Gui.convert_tasks files out_dir) = files.
Proof.
  unfold Gui.convert_tasks. rewrite map_map. cbn [fst]. apply map_id.
Qed.

Lemma preset_speed py_repr profile preset custom tasks normalize ow :
  In profile (map fst PROFILES) -> In preset SPEED_PRESETS ->
  exists cfg v,
    make_worker py_repr tasks profile preset custom normalize ow
    = Ok {| Runner.tasks := tasks; w_profile := cfg; speed := v;
            normalize_audio := normalize; overwrite := ow |}
    /\ In (profile, cfg) PROFILES
    /\ fgt v f0 = true
    /\ (preset <> "Custom…" -> valid v = true /\ v <> finf).
Proof.
  intros Hp Hs. destruct (lookup_profile_present py_repr _ _ Hp) as (cfg & L & Hin).
  exists cfg. unfold make_worker. rewrite L. cbn [rbind].
  cbn [SPEED_PRESETS In] in Hs.
  repeat (destruct Hs as [<-|Hs];
          [first [ eexists; split; [vm_compute; reflexivity | ];
                   split; [exact Hin | ]; split; [reflexivity | ];
                   intros _; split; [reflexivity | discriminate]
                 | idtac ] | ]).
  2: destruct Hs.
  destruct (custom_speed_positive float_of_string custom) as (v & Pv & Gv).
  fold parse_speed in Pv. rewrite Pv. cbn [rbind].
  exists v. split; [reflexivity | ]. split; [exact Hin | ]. split; [exact Gv | ].
  intros N. exfalso. apply N. reflexivity.
Qed.

(** X17. The Convert button, with the two read-only boxes holding one of
    their values: the constructor of the worker never raises; no worker is
    started without a file or without the tools; and the worker that is
    started has one task per file, in the order of the list, each output
    being the suggestion for its input in the output folder, a speed above
    zero, and the bar gets the number of files as its maximum. *)
Theorem convert_starts_worker :
  forall py_repr ffmpeg_found files out_dir profile preset custom normalize ow,
    In profile (map fst PROFILES) -> In preset SPEED_PRESETS ->
    match Gui.convert py_repr ffmpeg_found files out_dir profile preset custom normalize ow
    with
    | Gui.NoFiles => files = []
    | Gui.MissingFfmpeg => files <> [] /\ ffmpeg_found = false
    | Gui.CtorRaised _ => False
    | Gui.Started w maximum =>
        files <> [] /\ ffmpeg_found = true
        /\ maximum = List.length files
        /\ List.length (tasks w) = maximum
        /\ map fst (tasks w) = files
        /\ map snd (tasks w) = map (fun f => suggest_output_path f out_dir) files
        /\ In (profile, w_profile w) PROFILES
        /\ fgt (speed w) f0 = true
        /\ normalize_audio w = normalize /\ overwrite w = ow
    end.
Proof.
  intros py_repr ffmpeg_found files out_dir profile preset custom normalize ow Hp Hs.
  unfold Gui.convert. destruct files as [|f files]; [reflexivity | ].
  destruct ffmpeg_found; cbn [negb]; [ | split; [discriminate | reflexivity]].
  cbv zeta.
  destruct (preset_speed py_repr profile preset custom
              (Gui.convert_tasks (f :: files) out_dir)
              normalize ow Hp Hs) as (cfg & v & -> & Hin & Gv & _).
  cbn [tasks w_profile speed normalize_audio overwrite].
  split; [discriminate | ]. split; [reflexivity | ].
  split; [unfold Gui.convert_tasks; apply length_map | ].
  split; [reflexivity | ]. split; [apply convert_tasks_inputs | ].
  split; [unfold Gui.convert_tasks; rewrite map_map; reflexivity | ].
  repeat split; assumption.
Qed.

Lemma expected_counts_below k idx c :
  1 <= idx -> In c (removelast (expected_counts idx (S k))) -> c < idx + k.
Proof.
  intros Hidx H. rewrite expected_counts_snoc in H.
  change [idx + k - 1; idx + k] with ([idx + k - 1] ++ [idx + k]) in H.
  rewrite app_assoc, removelast_last in H.
  apply in_app_or in H. destruct H as [H|[<-|[]]]; [ | lia].
  destruct k; [destruct H | ]. apply expected_counts_bound in H. lia.
Qed.

Lemma make_worker_ok py_repr ts profile preset custom normalize ow w :
  make_worker py_repr ts profile preset custom normalize ow = Ok w -> tasks w = ts.
Proof.
  unfold make_worker.
  destruct (lookup_profile py_repr PROFILES profile) as [cfg|e]; cbn [rbind];
    [ | discriminate].
  destruct (parse_speed preset custom) as [v|e]; cbn [rbind]; [ | discriminate].
  intros [= <-]. reflexivity.
Qed.

(** X18. The run of a worker that the Convert button started, when the two
    reports of the loop return and every tool that is started exits: it
    returns, for
    every speed setting; the last completed count handed to the progress
    callback is the maximum the bar was given, which is at least 1, and
    every count before it is below that maximum. *)
Theorem started_run_reaches_maximum :
  forall {W : Type} (os : OS W) json_loads float_str fuel (w0 : W)
         py_repr ffmpeg_found files out_dir profile preset custom normalize ow wk maximum,
    reports_return os -> tools_exit os ->
    Gui.convert py_repr ffmpeg_found files out_dir profile preset custom normalize ow
    = Gui.Started wk maximum ->
    exists w' t,
      run os json_loads float_str fuel wk w0 = (w', t, Done tt)
      /\ 1 <= maximum
      /\ last (progress_counts t) 0 = maximum
      /\ Forall (fun c => c < maximum) (removelast (progress_counts t)).
Proof.
  intros W os json_loads float_str fuel w0 py_repr ffmpeg_found files out_dir profile preset
         custom normalize ow wk maximum Hs Ht C.
  unfold Gui.convert in C. destruct files as [|f files]; [discriminate | ].
  destruct ffmpeg_found; cbn [negb] in C; [ | discriminate]. cbv zeta in C.
  destruct (make_worker py_repr _ profile preset custom normalize ow) as [w|e] eqn:M;
    [ | discriminate].
  injection C as Ew Em. subst w.
  assert (Hm : maximum = S (List.length files)).
  { rewrite <- Em. unfold Gui.convert_tasks. cbn [map List.length].
    rewrite ?length_map. reflexivity. }
  clear Em. subst maximum.
  pose proof (make_worker_ok _ _ _ _ _ _ _ _ M) as T.
  unfold run. rewrite T.
  set (ts := Gui.convert_tasks (f :: files) out_dir).
  assert (Ln : List.length ts = S (List.length files))
    by (unfold ts, Gui.convert_tasks; apply length_map).
  rewrite Ln.
  destruct (run_from_ends os json_loads float_str fuel wk Hs ts 1 (S (List.length files))
              w0 Ht) as (w' & t & R & Q).
  exists w', t. split; [exact R | ]. rewrite Ln in Q.
  split; [lia | ]. rewrite Q. split.
  - rewrite expected_counts_last. lia.
  - apply Forall_forall. intros c Hc.
    apply expected_counts_below in Hc; lia.
Qed.

Lemma add_files_appends_witness :
  (exists added,
      Gui.files (Gui.add_files Gui.empty_panel ["a.mov"; "b.mov"; "a.mov"])
      = Gui.files Gui.empty_panel ++ added)
  /\ (forall p, In p (Gui.files (Gui.add_files Gui.empty_panel ["a.mov"; "b.mov"; "a.mov"]))
                <-> In p (Gui.files Gui.empty_panel) \/ In p ["a.mov"; "b.mov"; "a.mov"]).
Proof.
  apply (add_files_appends Gui.empty_panel ["a.mov"; "b.mov"; "a.mov"]
           (NoDup_nil string) eq_refl).
Defined.

Lemma convert_starts_worker_witness :
  match Gui.convert (fun s => s) true ["/videos/a.mov"] "/out"
          "Balanced (Main L4.0, 30fps)" "1.5x" "" false true with
  | Gui.NoFiles => ["/videos/a.mov"] = []
  | Gui.MissingFfmpeg => ["/videos/a.mov"] <> [] /\ true = false
  | Gui.CtorRaised _ => False
  | Gui.Started w maximum =>
      ["/videos/a.mov"] <> [] /\ true = true
      /\ maximum = List.length ["/videos/a.mov"]
      /\ List.length (tasks w) = maximum
      /\ map fst (tasks w) = ["/videos/a.mov"]
      /\ map snd (tasks w) = map (fun f => suggest_output_path f "/out") ["/videos/a.mov"]
      /\ In ("Balanced (Main L4.0, 30fps)", w_profile w) PROFILES
      /\ fgt (speed w) f0 = true
      /\ normalize_audio w = false /\ overwrite w = true
  end.
Proof.
  apply (convert_starts_worker (fun s => s) true ["/videos/a.mov"] "/out"
           "Balanced (Main L4.0, 30fps)" "1.5x" "" false true).
  - right. left. reflexivity.
  - do 4 right. left. reflexivity.
Defined.

Lemma started_run_reaches_maximum_witness :
  exists w' t,
    run os_audio json_audio (fun _ => "2.0") 1100 gui_worker tt = (w', t, Done tt)
    /\ 1 <= 2
    /\ last (progress_counts t) 0 = 2
    /\ Forall (fun c => c < 2) (removelast (progress_counts t)).
Proof.
  apply (started_run_reaches_maximum os_audio json_audio (fun _ => "2.0") 1100 tt
           (fun s => s) true ["/videos/a.mov"; "/videos/b.mov"] "/out"
           "Balanced (Main L4.0, 30fps)" "2.0x" "1.0" false true gui_worker 2).
  - split; intros; reflexivity.
  - intros w cmd. discriminate.
  - reflexivity.
Defined.

End GuiFacts.
